(** * Network Usage Monitoring API: the data-access layer, embedded in Rocq

    A shallow embedding of [db/model.py], [db/schema.py], [db/crud.py] and of
    the [/remaining-balance-by-line] handler of [app.py].

    - A table is the list of its rows, in storage order.
    - A nullable column is an [option]; SQL's [NULL] is [None].
    - A Python [int] is a [Z]; a [datetime] is a count of microseconds; a
      [date] is its proleptic Gregorian ordinal ([date.toordinal()]).
    - A [select] statement denotes a function from the database to rows.
    - A crud function is a computation in the monad [M]: it reads the
      database and the clock, appends to the process output (log records and
      matplotlib calls) and either returns a value or raises.

    What the database driver and the libraries decide is fixed as follows.
    Integers are unbounded.  An average is the exact mean, a rational (the
    driver hands back a decimal or a float); [float(n)] of an integer is
    [n].  A [date] bound compared with a timestamp column is the midnight
    that starts that day, as MySQL (the default driver of [db/database.py])
    compares them.  Rows come in table order unless ordered, groups in an
    order that no property relies on, and [NULL] sorts lowest.  Log records
    and matplotlib calls are recorded in order, not interpreted. *)

From Stdlib Require Import ZArith QArith Qreduction List String Bool Lia.
From Stdlib Require Import Permutation Sorted DecimalString.
From Stdlib Require Qcanon.
Import ListNotations.

Local Open Scope Z_scope.

(** ** Python values *)

(** The exceptions that the modelled code can raise. *)
Inductive exn : Type :=
  | OverflowError            (* datetime arithmetic out of range *)
  | ValidationError          (* pydantic: a required field is None *)
  | TypeError                (* float(None) *)
  | ResponseValidationError. (* FastAPI: return value does not fit response_model *)

(** [str(n)] for an [int]. *)
Definition str (n : Z) : string := NilZero.string_of_int (Z.to_int n).

(** [str(x)] for an [int] or [None], as an f-string renders it. *)
Definition str_opt (x : option Z) : string :=
  match x with
  | Some n => str n
  | None => "None"%string
  end.

(** [len(xs)]. *)
Definition len {A} (xs : list A) : Z := Z.of_nat (List.length xs).

(** Truthiness of an optional [int] argument: [None] and [0] are falsy. *)
Definition truthy (x : option Z) : bool :=
  match x with
  | Some n => negb (n =? 0)
  | None => false
  end.

(** ** Dates and times ([datetime] module) *)

Definition date := Z.
Definition datetime := Z.

Definition usec_per_day : Z := 86400000000.

(** [date.min.toordinal()] and [date.max.toordinal()]. *)
Definition MINORDINAL : Z := 1.
Definition MAXORDINAL : Z := 3652059.

(** [dt.date()]: the day a timestamp falls on. *)
Definition date_of (t : datetime) : date := t / usec_per_day.


(** A [date] used where a [datetime] is expected denotes its midnight. *)
Definition midnight (d : date) : datetime := d * usec_per_day.

(** [timedelta(days=n)]: the magnitude of a timedelta is bounded. *)
Definition timedelta (days : Z) : exn + Z :=
  if (-999999999 <=? days) && (days <=? 999999999) then inr days
  else inl OverflowError.

(** [d - td] for a date and a whole-day timedelta: [date] arithmetic raises
    when the result leaves [date.min .. date.max]. *)
Definition date_sub (d : date) (td : Z) : exn + date :=
  let o := d - td in
  if (MINORDINAL <=? o) && (o <=? MAXORDINAL) then inr o
  else inl OverflowError.

(** [dt - timedelta(days=n)] on timestamps (used by the tests to build
    samples). *)
Definition days_before (t : datetime) (n : Z) : datetime := t - n * usec_per_day.

(** ** Tables ([db/model.py]) *)

Module Line.
Record t : Type := mk {
  id : Z;
  line_number : option string;
  name : option string
}.
End Line.

Module QuotaResults.
Record t : Type := mk {
  id : Z;
  process_id : option string;
  line_id : option Z;
  data_used : option Z;
  usage_percentage : option Z;
  data_remaining : option Z;
  balance : option Z;
  renewal_date : option string;
  remaining_days : option Z;
  renewal_cost : option Z;
  date_time : option datetime
}.
End QuotaResults.

Module SpeedTestResult.
Record t : Type := mk {
  id : Z;
  process_id : option string;
  line_id : option Z;
  ping : option Z;
  upload_speed : option Z;
  download_speed : option Z;
  public_ip : option string;
  date_time : option datetime
}.
End SpeedTestResult.

Record Database : Type := mkDatabase {
  lines : list Line.t;
  quota_results : list QuotaResults.t;
  speed_test_results : list SpeedTestResult.t
}.

(** The primary-key constraints of the three tables. *)
Record primary_keys (d : Database) : Prop := {
  pk_lines : NoDup (map Line.id (lines d));
  pk_quota_results : NoDup (map QuotaResults.id (quota_results d));
  pk_speed_test_results : NoDup (map SpeedTestResult.id (speed_test_results d))
}.

(** ** The process: database, clock and output *)

Inductive plt_call : Type :=
  | figure (width height : Z)
  | bar (x height : list (option Z)) (color : string)
  | xlabel (s : string)
  | ylabel (s : string)
  | title (s : string)
  | xticks (ticks : list (option Z))
  | grid (axis linestyle : string) (alpha : Q)
  | pie (x : list Z) (labels : list string) (autopct : string) (colors : list Z)
  | show.

Inductive event : Type :=
  | Info (msg : string)      (* logger.info(msg) *)
  | Plt (call : plt_call).   (* plt.<call> *)

Record world : Type := mkWorld {
  db : Database;
  clock : datetime;
  output : list event
}.

(** ** The monad of crud functions *)

Definition M (A : Type) : Type := world -> (exn + A) * world.

Definition ret {A} (a : A) : M A := fun w => (inr a, w).

Definition bind {A B} (m : M A) (k : A -> M B) : M B :=
  fun w =>
    match m w with
    | (inr a, w') => k a w'
    | (inl e, w') => (inl e, w')
    end.

Definition raise {A} (e : exn) : M A := fun w => (inl e, w).

Definition lift {A} (r : exn + A) : M A := fun w => (r, w).

Declare Scope py_scope.
Delimit Scope py_scope with py.
Notation "x <- m ;; k" := (bind m (fun x => k))
  (at level 61, m at next level, right associativity) : py_scope.
Notation "m ;; k" := (bind m (fun _ => k))
  (at level 61, right associativity) : py_scope.

Local Open Scope py_scope.

(** [[f(x) for x in xs]] where [f] may raise. *)
Fixpoint for_each {A B} (f : A -> M B) (xs : list A) : M (list B) :=
  match xs with
  | [] => ret []
  | x :: xs' => y <- f x ;; ys <- for_each f xs' ;; ret (y :: ys)
  end.

(** [for x in xs: f(x)]. *)
Fixpoint for_ {A} (xs : list A) (f : A -> M unit) : M unit :=
  match xs with
  | [] => ret tt
  | x :: xs' => f x ;; for_ xs' f
  end.

(** [session.execute(stmt)] / [query.all()]: evaluate a read-only statement
    against the current database. *)
Definition session_execute {R} (stmt : Database -> R) : M R :=
  fun w => (inr (stmt (db w)), w).

Definition logger_info (msg : string) : M unit :=
  fun w => (inr tt, mkWorld (db w) (clock w) (output w ++ [Info msg])).

Definition plt (call : plt_call) : M unit :=
  fun w => (inr tt, mkWorld (db w) (clock w) (output w ++ [Plt call])).

(** [datetime.now()]. *)
Definition datetime_now : M datetime := fun w => (inr (clock w), w).

(** ** SQL operators

    A statement is a function of the database.  Comparisons with [NULL] are
    not true, so a [WHERE] clause drops the row; aggregates skip [NULL]s and
    are [NULL] on no input; [GROUP BY] puts all [NULL] keys in one group. *)

Definition option_Z_eq_dec (a b : option Z) : {a = b} + {a <> b}.
Proof. decide equality. apply Z.eq_dec. Defined.

Arguments option_Z_eq_dec : simpl never.

Definition key_eqb (a b : option Z) : bool :=
  if option_Z_eq_dec a b then true else false.

(** [column == value] for an integer column and a Python value: against
    [None] it renders [IS NULL]; otherwise a [NULL] column never equals. *)
Definition sql_eq (column : option Z) (value : option Z) : bool :=
  match value, column with
  | None, None => true
  | None, Some _ => false
  | Some x, Some v => v =? x
  | Some _, None => false
  end.

(** [column.isnot(None)]. *)
Definition isnot_None {A} (column : option A) : bool :=
  match column with
  | Some _ => true
  | None => false
  end.

(** [column.between(start_date, end_date)] for a DateTime column and two
    [date] bounds: each bound is the midnight of its day, both ends are
    included. *)
Definition between (column : option datetime) (start_date end_date : date) : bool :=
  match column with
  | Some t => (midnight start_date <=? t) && (t <=? midnight end_date)
  | None => false
  end.

(** The non-[NULL] values of a column. *)
Fixpoint present {A} (vals : list (option A)) : list A :=
  match vals with
  | [] => []
  | Some v :: vals' => v :: present vals'
  | None :: vals' => present vals'
  end.

Definition total (vs : list Z) : Z := fold_right Z.add 0 vs.

(** [func.sum(column)]. *)
Definition sql_sum (vals : list (option Z)) : option Z :=
  match present vals with
  | [] => None
  | vs => Some (total vs)
  end.

(** [func.avg(column)]: the exact mean, as a reduced fraction. *)
Definition sql_avg (vals : list (option Z)) : option Q :=
  match present vals with
  | [] => None
  | vs => Some (Qred (inject_Z (total vs) / inject_Z (len vs)))
  end.

(** [func.count()]: the number of rows of the group. *)
Definition sql_count {A} (rows : list A) : Z := len rows.

(** [.group_by(key)]: one group per distinct key, holding the rows with that
    key.  The order of the groups is the database's choice; here it is the
    order of the last occurrences of the keys. *)
Definition group_by {A} (key : A -> option Z) (rows : list A)
  : list (option Z * list A) :=
  map (fun k => (k, filter (fun r => key_eqb (key r) k) rows))
      (nodup option_Z_eq_dec (map key rows)).

(** [select(key, agg).group_by(key)]: the shape of every aggregating
    statement of [crud.py]. *)
Definition aggregate {A B} (key : A -> option Z) (agg : list A -> B) (rows : list A)
  : list (option Z * B) :=
  map (fun g => (fst g, agg (snd g))) (group_by key rows).

(** Order on a nullable timestamp: [NULL] sorts lowest. *)
Definition datetime_leb (a b : option datetime) : bool :=
  match a, b with
  | None, _ => true
  | Some _, None => false
  | Some x, Some y => x <=? y
  end.

Fixpoint insert_desc {A} (key : A -> option datetime) (x : A) (rows : list A) : list A :=
  match rows with
  | [] => [x]
  | y :: rows' =>
      if datetime_leb (key y) (key x) then x :: y :: rows'
      else y :: insert_desc key x rows'
  end.

(** [.order_by(desc(key))]. *)
Fixpoint order_by_desc {A} (key : A -> option datetime) (rows : list A) : list A :=
  match rows with
  | [] => []
  | x :: rows' => insert_desc key x (order_by_desc key rows')
  end.

(** [.where(p)] / [.filter(p)] on a statement. *)
Definition where_ {A} (stmt : Database -> list A) (p : A -> bool)
  : Database -> list A :=
  fun d => filter p (stmt d).

(** ** Response shapes ([db/schema.py]) *)

Module LineSchema.
Record t : Type := mk {
  id : Z;
  line_number : string;
  name : string
}.

(** [id], [line_number] and [name] are required. *)
Definition model_validate (line : Line.t) : M t :=
  match Line.line_number line, Line.name line with
  | Some n, Some m => ret (mk (Line.id line) n m)
  | _, _ => raise ValidationError
  end.
End LineSchema.

Module QuotaResultSchema.
Record t : Type := mk {
  id : option Z;
  process_id : option string;
  line_id : option Z;
  data_used : option Z;
  usage_percentage : option Z;
  data_remaining : option Z;
  balance : option Z;
  renewal_date : option string;
  remaining_days : option Z;
  renewal_cost : option Z;
  date_time : option datetime
}.

(** The record read off the attributes of an ORM row. *)
Definition from_attributes (r : QuotaResults.t) : t :=
  mk (Some (QuotaResults.id r)) (QuotaResults.process_id r)
     (QuotaResults.line_id r) (QuotaResults.data_used r)
     (QuotaResults.usage_percentage r) (QuotaResults.data_remaining r)
     (QuotaResults.balance r) (QuotaResults.renewal_date r)
     (QuotaResults.remaining_days r) (QuotaResults.renewal_cost r)
     (QuotaResults.date_time r).

(** Every field is [Optional]: validation always succeeds. *)
Definition model_validate (r : QuotaResults.t) : M t := ret (from_attributes r).
End QuotaResultSchema.

Module SpeedTestResultSchema.
Record t : Type := mk {
  id : Z;
  process_id : string;
  line_id : Z;
  ping : Z;
  upload_speed : Z;
  download_speed : Z;
  public_ip : string;
  date_time : datetime
}.

(** Every field is required. *)
Definition model_validate (r : SpeedTestResult.t) : M t :=
  match SpeedTestResult.process_id r, SpeedTestResult.line_id r,
        SpeedTestResult.ping r, SpeedTestResult.upload_speed r,
        SpeedTestResult.download_speed r, SpeedTestResult.public_ip r,
        SpeedTestResult.date_time r with
  | Some p, Some l, Some pg, Some u, Some dl, Some ip, Some t =>
      ret (mk (SpeedTestResult.id r) p l pg u dl ip t)
  | _, _, _, _, _, _, _ => raise ValidationError
  end.
End SpeedTestResultSchema.

Module RemainingBalanceByLine.
Record t : Type := mk {
  line_id : Z;
  total_balance : Q
}.
End RemainingBalanceByLine.

Module AverageSpeedsPerLine.
Record t : Type := mk {
  line_id : option Z;
  avg_upload_speed : option Q;
  avg_download_speed : option Q
}.

Definition from_attributes (row : option Z * (option Q * option Q)) : t :=
  mk (fst row) (fst (snd row)) (snd (snd row)).

(** Every field is [Optional]: validation always succeeds. *)
Definition model_validate (row : option Z * (option Q * option Q)) : M t :=
  ret (from_attributes row).
End AverageSpeedsPerLine.

Module AveragePingPerLine.
Record t : Type := mk {
  line_id : option Z;
  avg_ping : option Q
}.

Definition from_attributes (row : option Z * option Q) : t :=
  mk (fst row) (snd row).

(** Every field is [Optional]: validation always succeeds. *)
Definition model_validate (row : option Z * option Q) : M t :=
  ret (from_attributes row).
End AveragePingPerLine.

(** ** The data-access functions ([db/crud.py]) *)

Local Open Scope string_scope.

Definition read_lines_stmt (id : option Z) : Database -> list Line.t :=
  let stmt := lines in
  if truthy id then where_ stmt (fun l => sql_eq (Some (Line.id l)) id)
  else stmt.

Definition read_lines (id : option Z) : M (list LineSchema.t) :=
  results <- session_execute (read_lines_stmt id) ;;
  logger_info ("Fetched " ++ str (len results) ++ " lines from the database.") ;;
  for_each LineSchema.model_validate results.

Definition read_quota_results_stmt (line_id : option Z)
  : Database -> list QuotaResults.t :=
  let stmt := quota_results in
  let stmt :=
    if truthy line_id
    then where_ stmt (fun r => sql_eq (QuotaResults.line_id r) line_id)
    else stmt in
  fun d => order_by_desc QuotaResults.date_time (stmt d).

Definition read_quota_results (line_id : option Z) : M (list QuotaResultSchema.t) :=
  results <- session_execute (read_quota_results_stmt line_id) ;;
  logger_info ("Fetched " ++ str (len results) ++ " quota results from the database.") ;;
  for_each QuotaResultSchema.model_validate results.

Definition read_speed_test_results_stmt (line_id : option Z)
  : Database -> list SpeedTestResult.t :=
  let stmt := speed_test_results in
  if truthy line_id
  then where_ stmt (fun r => sql_eq (SpeedTestResult.line_id r) line_id)
  else stmt.

Definition read_speed_test_results (line_id : option Z)
  : M (list SpeedTestResultSchema.t) :=
  results <- session_execute (read_speed_test_results_stmt line_id) ;;
  logger_info ("Fetched " ++ str (len results) ++ " speed test results from the database.") ;;
  for_each SpeedTestResultSchema.model_validate results.

(** Rows [(line_id, total_dataused)]. *)
Definition total_dataused_stmt (d : Database) : list (option Z * option Z) :=
  aggregate QuotaResults.line_id
    (fun g => sql_sum (map QuotaResults.data_used g))
    (quota_results d).

Definition get_total_dataused_per_line : M unit :=
  results <- session_execute total_dataused_stmt ;;
  logger_info ("Fetched total data usage for " ++ str (len results) ++ " lines.") ;;
  let line_ids := map fst results in
  let total_dataused := map snd results in
  plt (figure 10 6) ;;
  plt (bar line_ids total_dataused "skyblue") ;;
  plt (xlabel "Line ID") ;;
  plt (ylabel "Total Data Used") ;;
  plt (title "Total Data Used per Line ID") ;;
  plt (xticks line_ids) ;;
  plt (grid "y" "--" (7 # 10)) ;;
  plt show ;;
  logger_info "Displayed total data used per line chart.".

(** Rows [(renewal_cost, count)]. *)
Definition count_per_renewal_cost_stmt (d : Database) : list (option Z * Z) :=
  aggregate QuotaResults.renewal_cost sql_count
    (filter (fun r => isnot_None (QuotaResults.renewal_cost r)) (quota_results d)).

(** [float(x)] of an integer column value; [float(None)] raises.  The float
    is identified with the integer it converts (exact below 2^53). *)
Definition float (x : option Z) : M Z :=
  match x with
  | Some v => ret v
  | None => raise TypeError
  end.

(** [f"{cost:.2f}"] of such a float. *)
Definition format_2f (cost : Z) : string := str cost ++ ".00".

(** [range(n)]. *)
Definition range (n : Z) : list Z := map Z.of_nat (seq 0 (Z.to_nat n)).

Definition get_count_per_renewal_cost : M unit :=
  stmt <- session_execute count_per_renewal_cost_stmt ;;
  logger_info ("Fetched renewal cost counts for " ++ str (len stmt)
               ++ " renewal cost categories.") ;;
  renewal_costs <- for_each (fun row => float (fst row)) stmt ;;
  let counts := map snd stmt in
  plt (figure 8 8) ;;
  plt (pie counts (map format_2f renewal_costs) "%1.1f%%" (range (len counts))) ;;
  plt (title "Distribution of Counts by Renewal Cost") ;;
  plt show ;;
  logger_info "Displayed pie chart for renewal cost distribution.".

(** Rows [(line_id, total_balance)]. *)
Definition remaining_balance_stmt (d : Database) : list (option Z * option Z) :=
  aggregate QuotaResults.line_id
    (fun g => sql_sum (map QuotaResults.balance g))
    (quota_results d).

(** The function has no [return] statement: its value is [None]. *)
Definition remaining_balance_by_line : M unit :=
  results <- session_execute remaining_balance_stmt ;;
  logger_info ("Fetched remaining balances for " ++ str (len results) ++ " lines.") ;;
  for_ results (fun result =>
    logger_info ("Line ID: " ++ str_opt (fst result)
                 ++ ", Total Remaining Balance: " ++ str_opt (snd result))).

(** The rows of [speed_test_results] whose timestamp lies in the window. *)
Definition in_window (start_date end_date : date) (d : Database)
  : list SpeedTestResult.t :=
  filter (fun r => between (SpeedTestResult.date_time r) start_date end_date)
         (speed_test_results d).

(** Rows [(line_id, (avg_upload_speed, avg_download_speed))]. *)
Definition average_speeds_stmt (start_date end_date : date) (d : Database)
  : list (option Z * (option Q * option Q)) :=
  aggregate SpeedTestResult.line_id
    (fun g => (sql_avg (map SpeedTestResult.upload_speed g),
               sql_avg (map SpeedTestResult.download_speed g)))
    (in_window start_date end_date d).

Definition average_speeds_per_line (days : Z) : M (list AverageSpeedsPerLine.t) :=
  now <- datetime_now ;;
  let end_date := date_of now in
  delta <- lift (timedelta days) ;;
  start_date <- lift (date_sub end_date delta) ;;
  results <- session_execute (average_speeds_stmt start_date end_date) ;;
  logger_info ("Fetched average speeds for " ++ str (len results) ++ " lines over "
               ++ str days ++ " days.") ;;
  for_each AverageSpeedsPerLine.model_validate results.

(** Rows [(line_id, avg_ping)]. *)
Definition average_ping_stmt (start_date end_date : date) (d : Database)
  : list (option Z * option Q) :=
  aggregate SpeedTestResult.line_id
    (fun g => sql_avg (map SpeedTestResult.ping g))
    (in_window start_date end_date d).

Definition average_ping_per_line (days : Z) : M (list AveragePingPerLine.t) :=
  now <- datetime_now ;;
  let end_date := date_of now in
  delta <- lift (timedelta days) ;;
  start_date <- lift (date_sub end_date delta) ;;
  results <- session_execute (average_ping_stmt start_date end_date) ;;
  logger_info ("Fetched average ping for " ++ str (len results) ++ " lines over "
               ++ str days ++ " days.") ;;
  for_each AveragePingPerLine.model_validate results.

(** ** The [/remaining-balance-by-line] handler ([app.py]) *)

(** FastAPI checks what a handler returns against
    [response_model=List[...]]: [None] is not a list. *)
Definition serialize_response {A R} (validate : A -> M R) (value : unit + list A)
  : M (list R) :=
  match value with
  | inl tt => raise ResponseValidationError
  | inr rows => for_each validate rows
  end.

(** [RemainingBalanceByLine] requires both fields. *)
Definition validate_balance (row : option Z * option Z) : M RemainingBalanceByLine.t :=
  match row with
  | (Some l, Some b) => ret (RemainingBalanceByLine.mk l (inject_Z b))
  | _ => raise ResponseValidationError
  end.

Definition get_remaining_balance_by_line : M (list RemainingBalanceByLine.t) :=
  value <- remaining_balance_by_line ;;
  serialize_response validate_balance (inl value).

Local Close Scope string_scope.


(** ** Running a computation *)

Definition result {A} (m : M A) (w : world) : exn + A := fst (m w).
Definition final {A} (m : M A) (w : world) : world := snd (m w).

(** A computation that leaves the three tables as it found them. *)
Definition preserves_db {A} (m : M A) : Prop :=
  forall w, db (final m w) = db w.

(** ** Fixtures of [test_app.py] *)

Module Fixtures.
Local Open Scope string_scope.

(** 2026-11-03 12:00:00. *)
Definition noon : datetime := 739923 * usec_per_day + 43200000000.

Definition new_line : Line.t := Line.mk 1 (Some "123") (Some "Test Line").

Definition quota_result : QuotaResults.t :=
  QuotaResults.mk 1 (Some "proc-123") (Some 1) (Some 100) (Some 50) (Some 100)
    (Some 50) (Some "2023-09-01") (Some 10) (Some 20) (Some noon).

(** The speed test of the tests, taken [d] days before [now]. *)
Definition speed_test (now : datetime) (d : Z) : SpeedTestResult.t :=
  SpeedTestResult.mk 1 (Some "speed-123") (Some 1) (Some 20) (Some 50) (Some 100)
    (Some "192.168.1.1") (Some (days_before now d)).

(** The database of the tests, with the speed test taken [d] days ago. *)
Definition test_db (d : Z) : Database :=
  mkDatabase [new_line] [quota_result] [speed_test noon d].

Definition test_world (d : Z) : world := mkWorld (test_db d) noon [].

End Fixtures.

(** A line whose [line_number] and [name] were never filled in: both
    columns are nullable. *)
Definition blank_line : Line.t := Line.mk 1 None None.

Definition blank_world : world :=
  mkWorld (mkDatabase [blank_line] [] []) Fixtures.noon [].

(** ** Vocabulary of the properties *)

(** The rows of the group of key [k]. *)
Definition group_of {A} (key : A -> option Z) (k : option Z) (rows : list A) : list A :=
  filter (fun r => key_eqb (key r) k) rows.

(** The arithmetic sum of a column over some rows; a [NULL] adds nothing. *)
Definition column_sum {A} (column : A -> option Z) (rows : list A) : Z :=
  total (present (map column rows)).


(** The date arithmetic of the window stays within [timedelta] and [date]. *)
Definition window_in_range (now : datetime) (days : Z) : Prop :=
  -999999999 <= days <= 999999999 /\
  MINORDINAL <= date_of now - days <= MAXORDINAL.

(** [start_date], or the exception of the date arithmetic. *)
Definition window_start (now : datetime) (days : Z) : exn + date :=
  match timedelta days with
  | inl e => inl e
  | inr delta => date_sub (date_of now) delta
  end.








(** Both functions return the empty list. *)
Definition averages_empty (w : world) (days : Z) : Prop :=
  result (average_speeds_per_line days) w = inr [] /\
  result (average_ping_per_line days) w = inr [].

(** A response record equal to a stored line. *)
Definition represents (s : LineSchema.t) (L : Line.t) : Prop :=
  Line.id L = LineSchema.id s /\
  Line.line_number L = Some (LineSchema.line_number s) /\
  Line.name L = Some (LineSchema.name s).

(** A line with a [line_number] and a [name]. *)
Definition complete (L : Line.t) : Prop :=
  Line.line_number L <> None /\ Line.name L <> None.

(** [read_lines()] includes every stored line. *)
Definition read_lines_includes_all (w : world) : Prop :=
  exists rows,
    result (read_lines None) w = inr rows /\
    forall L, In L (lines (db w)) -> exists s, In s rows /\ represents s L.

(** [read_lines(id=L.id)] returns exactly one record, equal to [L]. *)
Definition read_lines_finds (w : world) (L : Line.t) : Prop :=
  exists s,
    result (read_lines (Some (Line.id L))) w = inr [s] /\ represents s L.

(** Row [a] may come before row [b] in descending order of [key]. *)
Definition not_before {A} (key : A -> option datetime) (a b : A) : Prop :=
  datetime_leb (key b) (key a) = true.

(** Rows in descending order of a nullable timestamp: every row is
    [not_before] all the rows listed after it. *)
Definition descending {A} (key : A -> option datetime) (rows : list A) : Prop :=
  StronglySorted (not_before key) rows.

(** The quota results that match an optional [line_id] filter: those of
    line [i], or all of them when the filter is absent. *)
Definition matching (line_id : option Z) (d : Database) : list QuotaResults.t :=
  match line_id with
  | None => quota_results d
  | Some i => group_of QuotaResults.line_id (Some i) (quota_results d)
  end.

(** ** The application ([app.py]) and its sessions ([db/database.py])

    A request runs a handler, an [async def] of [app.py], with a session
    from [get_db], and FastAPI checks what the handler returns against the
    route's [response_model].  A handler calls a function through its name
    in the module's globals, where a later [def] rebinds an imported name;
    calling an [async def] makes a coroutine and runs nothing. *)

(** What a handler can hand back. *)
Inductive returned : Type :=
  | Message (text : string)                          (* {"message": text} *)
  | LineRecords (rows : list LineSchema.t)
  | QuotaRecords (rows : list QuotaResultSchema.t)
  | SpeedTestRecords (rows : list SpeedTestResultSchema.t)
  | SpeedAverages (rows : list AverageSpeedsPerLine.t)
  | PingAverages (rows : list AveragePingPerLine.t)
  | NoneValue
  | Coroutine (name : string).                       (* never awaited *)

(** How a request can fail. *)
Inductive failure : Type :=
  | Raised (e : exn)
  | NameError (name : string)
  | ValueError.              (* jsonable_encoder: not serializable *)

(** The server: the process, and the sessions open on the engine. *)
Record server : Type := mkServer {
  process : world;
  open_sessions : nat
}.

Definition Served (A : Type) : Type := server -> (failure + A) * server.

Definition hret {A} (a : A) : Served A := fun s => (inr a, s).

Definition hraise {A} (f : failure) : Served A := fun s => (inl f, s).

Definition hbind {A B} (m : Served A) (k : A -> Served B) : Served B :=
  fun s =>
    match m s with
    | (inr a, s') => k a s'
    | (inl f, s') => (inl f, s')
    end.

(** A crud function run within a request. *)
Definition run {A} (m : M A) : Served A :=
  fun s =>
    match m (process s) with
    | (inr a, w') => (inr a, mkServer w' (open_sessions s))
    | (inl e, w') => (inl (Raised e), mkServer w' (open_sessions s))
    end.

(** [SessionLocal()] and [db.close()]. *)
Definition SessionLocal : Served unit :=
  fun s => (inr tt, mkServer (process s) (S (open_sessions s))).

Definition close : Served unit :=
  fun s => (inr tt, mkServer (process s) (Nat.pred (open_sessions s))).

(** [try: body finally: cleanup]. *)
Definition try_finally {A} (body : Served A) (cleanup : Served unit) : Served A :=
  fun s =>
    match body s with
    | (r, s') =>
        match cleanup s' with
        | (inr _, s'') => (r, s'')
        | (inl f, s'') => (inl f, s'')
        end
    end.

(** [get_db], with the request that depends on it running at the [yield]. *)
Definition get_db {A} (request : Served A) : Served A :=
  hbind SessionLocal (fun _ => try_finally request close).

(** The names that [app.py] binds to functions, in the order of the file:
    the imports from [db.crud], then its own definitions. *)
Inductive binding : Type :=
  | Import (name : string)
  | AsyncDef (name : string).

Definition bound_name (b : binding) : string :=
  match b with
  | Import name => name
  | AsyncDef name => name
  end.

Definition app_py : list binding :=
  [ Import "read_lines";
    Import "read_quota_results";
    Import "read_speed_test_results";
    Import "get_total_dataused_per_line";
    Import "get_count_per_renewal_cost";
    Import "remaining_balance_by_line";
    Import "average_speeds_per_line";
    Import "average_ping_per_line";
    AsyncDef "root";
    AsyncDef "get_lines";
    AsyncDef "get_quota_results";
    AsyncDef "get_speed_test_results";
    AsyncDef "get_total_dataused_per_line";
    AsyncDef "get_count_per_renewal_cost";
    AsyncDef "get_remaining_balance_by_line";
    AsyncDef "get_average_speeds_per_line";
    AsyncDef "get_average_ping_per_line" ]%string.

(** The value of a global name once the module is loaded: its latest
    binding. *)
Fixpoint global (name : string) (module : list binding) : option binding :=
  match module with
  | [] => None
  | b :: rest =>
      match global name rest with
      | Some later => Some later
      | None => if String.eqb (bound_name b) name then Some b else None
      end
  end.

(** The query parameters of a request. *)
Record arguments : Type := mkArguments {
  arg_id : option Z;
  arg_line_id : option Z;
  arg_days : Z
}.

(** The functions of [db.crud], each applied to the arguments that its
    caller in [app.py] passes. *)
Definition crud (name : string) (a : arguments) : option (M returned) :=
  if String.eqb name "read_lines" then
    Some (rows <- read_lines (arg_id a) ;; ret (LineRecords rows))
  else if String.eqb name "read_quota_results" then
    Some (rows <- read_quota_results (arg_line_id a) ;; ret (QuotaRecords rows))
  else if String.eqb name "read_speed_test_results" then
    Some (rows <- read_speed_test_results (arg_line_id a) ;;
          ret (SpeedTestRecords rows))
  else if String.eqb name "get_total_dataused_per_line" then
    Some (get_total_dataused_per_line ;; ret NoneValue)
  else if String.eqb name "get_count_per_renewal_cost" then
    Some (get_count_per_renewal_cost ;; ret NoneValue)
  else if String.eqb name "remaining_balance_by_line" then
    Some (remaining_balance_by_line ;; ret NoneValue)
  else if String.eqb name "average_speeds_per_line" then
    Some (rows <- average_speeds_per_line (arg_days a) ;; ret (SpeedAverages rows))
  else if String.eqb name "average_ping_per_line" then
    Some (rows <- average_ping_per_line (arg_days a) ;; ret (PingAverages rows))
  else None.

(** [name(...)] in a handler body. *)
Definition call (name : string) (a : arguments) : Served returned :=
  match global name app_py with
  | Some (Import imported) =>
      match crud imported a with
      | Some m => run m
      | None => hraise (NameError imported)
      end
  | Some (AsyncDef defined) => hret (Coroutine defined)
  | None => hraise (NameError name)
  end.

(** The routes, by path. *)
Inductive route : Type :=
  | Route_root
  | Route_lines
  | Route_quota_results
  | Route_speed_test_results
  | Route_total_dataused_per_line
  | Route_count_per_renewal_cost
  | Route_remaining_balance_by_line
  | Route_average_speeds_per_line
  | Route_average_ping_per_line.

(** The body of the handler of each route. *)
Definition handler (r : route) (a : arguments) : Served returned :=
  match r with
  | Route_root => hret (Message "Hello World")
  | Route_lines => call "read_lines" a
  | Route_quota_results => call "read_quota_results" a
  | Route_speed_test_results => call "read_speed_test_results" a
  | Route_total_dataused_per_line => call "get_total_dataused_per_line" a
  | Route_count_per_renewal_cost => call "get_count_per_renewal_cost" a
  | Route_remaining_balance_by_line => call "remaining_balance_by_line" a
  | Route_average_speeds_per_line => call "average_speeds_per_line" a
  | Route_average_ping_per_line => call "average_ping_per_line" a
  end.

Inductive response_model : Type :=
  | NoModel
  | ListLineSchema
  | ListTotalDataUsedPerLine
  | ListRenewalCostCount
  | ListRemainingBalanceByLine
  | ListAverageSpeedsPerLine
  | ListAveragePingPerLine.

Definition response_model_of (r : route) : response_model :=
  match r with
  | Route_root => NoModel
  | Route_lines => ListLineSchema
  | Route_quota_results => NoModel
  | Route_speed_test_results => NoModel
  | Route_total_dataused_per_line => ListTotalDataUsedPerLine
  | Route_count_per_renewal_cost => ListRenewalCostCount
  | Route_remaining_balance_by_line => ListRemainingBalanceByLine
  | Route_average_speeds_per_line => ListAverageSpeedsPerLine
  | Route_average_ping_per_line => ListAveragePingPerLine
  end.

(** The check of a returned value against the response model: a list of
    records of the model passes; [None] and a coroutine are no list.
    Without a model the value is encoded as it is, which a coroutine
    cannot be. *)
Definition serialize (model : response_model) (value : returned) : Served returned :=
  match model, value with
  | NoModel, Coroutine _ => hraise ValueError
  | NoModel, _ => hret value
  | ListLineSchema, LineRecords _ => hret value
  | ListAverageSpeedsPerLine, SpeedAverages _ => hret value
  | ListAveragePingPerLine, PingAverages _ => hret value
  | _, _ => hraise (Raised ResponseValidationError)
  end.

(** Whether the handler declares [db: Session = Depends(get_db)]. *)
Definition depends_on_db (r : route) : bool :=
  match r with
  | Route_root => false
  | _ => true
  end.

(** A GET request on a route. *)
Definition request (r : route) (a : arguments) : Served returned :=
  let respond := hbind (handler r a) (serialize (response_model_of r)) in
  if depends_on_db r then get_db respond else respond.

(** ** Vocabulary of the further properties *)

(** The lines that [read_lines] is asked for: those with id [i], or all of
    them when the argument is [None] or [0]. *)
Definition lines_asked (id : option Z) (d : Database) : list Line.t :=
  match id with
  | None => lines d
  | Some i => if Z.eq_dec i 0 then lines d
              else filter (fun L => Line.id L =? i) (lines d)
  end.

(** The speed tests that [read_speed_test_results] is asked for. *)
Definition speed_tests_asked (line_id : option Z) (d : Database)
  : list SpeedTestResult.t :=
  match line_id with
  | None => speed_test_results d
  | Some i => if Z.eq_dec i 0 then speed_test_results d
              else group_of SpeedTestResult.line_id (Some i) (speed_test_results d)
  end.

(** A speed test with every column filled in, and its response record. *)
Definition records (s : SpeedTestResultSchema.t) (r : SpeedTestResult.t) : Prop :=
  SpeedTestResult.id r = SpeedTestResultSchema.id s /\
  SpeedTestResult.process_id r = Some (SpeedTestResultSchema.process_id s) /\
  SpeedTestResult.line_id r = Some (SpeedTestResultSchema.line_id s) /\
  SpeedTestResult.ping r = Some (SpeedTestResultSchema.ping s) /\
  SpeedTestResult.upload_speed r = Some (SpeedTestResultSchema.upload_speed s) /\
  SpeedTestResult.download_speed r = Some (SpeedTestResultSchema.download_speed s) /\
  SpeedTestResult.public_ip r = Some (SpeedTestResultSchema.public_ip s) /\
  SpeedTestResult.date_time r = Some (SpeedTestResultSchema.date_time s).

Definition filled (r : SpeedTestResult.t) : Prop :=
  exists s, records s r.

(** A computation that only adds to the output and does not touch the
    clock. *)
Definition appends_only {A} (m : M A) : Prop :=
  forall w,
    clock (final m w) = clock w /\
    exists events, output (final m w) = output w ++ events.

(** A speed test whose timestamp lies between the midnights of two days. *)
Definition within (start_date end_date : date) (r : SpeedTestResult.t) : Prop :=
  exists t,
    SpeedTestResult.date_time r = Some t /\
    midnight start_date <= t <= midnight end_date.


(** The line ids of the rows of each result. *)
Definition speeds_ids (rows : list AverageSpeedsPerLine.t) : list (option Z) :=
  map AverageSpeedsPerLine.line_id rows.

Definition ping_ids (rows : list AveragePingPerLine.t) : list (option Z) :=
  map AveragePingPerLine.line_id rows.


(** The outcome of a request that passes on what the crud function [m]
    returns or raises, with the session count as before. *)
Definition passes_on {A} (m : M A) (wrap : A -> returned) (s : server)
  : (failure + returned) * server :=
  match m (process s) with
  | (inr rows, w') => (inr (wrap rows), mkServer w' (open_sessions s))
  | (inl e, w') => (inl (Raised e), mkServer w' (open_sessions s))
  end.

(** A step of a request that opens or closes no session on balance and
    leaves the tables alone. *)
Definition steady {A} (m : Served A) : Prop :=
  forall s,
    open_sessions (snd (m s)) = open_sessions s /\
    db (process (snd (m s))) = db (process s).

(** * Properties *)

(** ** The assertions of [test_app.py] *)

Example test_read_lines :
  result (read_lines None) (Fixtures.test_world 10)
  = inr [LineSchema.mk 1 "123" "Test Line"].
Proof. reflexivity. Qed.

Example test_read_quota_results :
  result (read_quota_results (Some 1)) (Fixtures.test_world 10)
  = inr [QuotaResultSchema.from_attributes Fixtures.quota_result].
Proof. reflexivity. Qed.

Example test_read_speed_test_results :
  result (read_speed_test_results (Some 1)) (Fixtures.test_world 0)
  = inr [SpeedTestResultSchema.mk 1 "speed-123" 1 20 50 100 "192.168.1.1"
           Fixtures.noon].
Proof. reflexivity. Qed.

Example test_average_speeds_per_line :
  result (average_speeds_per_line 30) (Fixtures.test_world 10)
  = inr [AverageSpeedsPerLine.mk (Some 1) (Some (50 # 1)) (Some (100 # 1))].
Proof. reflexivity. Qed.

Example test_average_ping_per_line :
  result (average_ping_per_line 30) (Fixtures.test_world 10)
  = inr [AveragePingPerLine.mk (Some 1) (Some (20 # 1))].
Proof. reflexivity. Qed.

(** A sample taken ten days ago is outside a window of five days. *)
Example average_speeds_five_days :
  result (average_speeds_per_line 5) (Fixtures.test_world 10) = inr [].
Proof. reflexivity. Qed.

(** ** The tables are only read *)

Lemma preserves_db_ret {A} (a : A) : preserves_db (ret a).
Proof. intro w. reflexivity. Qed.

Lemma preserves_db_raise {A} (e : exn) : preserves_db (@raise A e).
Proof. intro w. reflexivity. Qed.

Lemma preserves_db_lift {A} (r : exn + A) : preserves_db (lift r).
Proof. intro w. reflexivity. Qed.

Lemma preserves_db_bind {A B} (m : M A) (k : A -> M B) :
  preserves_db m -> (forall a, preserves_db (k a)) -> preserves_db (bind m k).
Proof.
  intros Hm Hk w. unfold final, bind.
  specialize (Hm w). unfold final in Hm.
  destruct (m w) as [[e | a] w']; simpl in *.
  - exact Hm.
  - rewrite <- Hm. apply Hk.
Qed.

Lemma preserves_db_session_execute {R} (stmt : Database -> R) :
  preserves_db (session_execute stmt).
Proof. intro w. reflexivity. Qed.

Lemma preserves_db_logger_info (msg : string) : preserves_db (logger_info msg).
Proof. intro w. reflexivity. Qed.

Lemma preserves_db_plt (c : plt_call) : preserves_db (plt c).
Proof. intro w. reflexivity. Qed.

Lemma preserves_db_datetime_now : preserves_db datetime_now.
Proof. intro w. reflexivity. Qed.

Lemma preserves_db_for_each {A B} (f : A -> M B) (xs : list A) :
  (forall x, preserves_db (f x)) -> preserves_db (for_each f xs).
Proof.
  intro Hf. induction xs as [| x xs IH]; simpl.
  - apply preserves_db_ret.
  - apply preserves_db_bind; [apply Hf |].
    intro y. apply preserves_db_bind; [exact IH |].
    intro ys. apply preserves_db_ret.
Qed.

Lemma preserves_db_for_ {A} (xs : list A) (f : A -> M unit) :
  (forall x, preserves_db (f x)) -> preserves_db (for_ xs f).
Proof.
  intro Hf. induction xs as [| x xs IH]; simpl.
  - apply preserves_db_ret.
  - apply preserves_db_bind; [apply Hf | intros _; exact IH].
Qed.

Lemma preserves_db_LineSchema (l : Line.t) :
  preserves_db (LineSchema.model_validate l).
Proof.
  unfold LineSchema.model_validate.
  destruct (Line.line_number l), (Line.name l);
    (apply preserves_db_ret || apply preserves_db_raise).
Qed.

Lemma preserves_db_SpeedTestResultSchema (r : SpeedTestResult.t) :
  preserves_db (SpeedTestResultSchema.model_validate r).
Proof.
  unfold SpeedTestResultSchema.model_validate.
  destruct (SpeedTestResult.process_id r), (SpeedTestResult.line_id r),
    (SpeedTestResult.ping r), (SpeedTestResult.upload_speed r),
    (SpeedTestResult.download_speed r), (SpeedTestResult.public_ip r),
    (SpeedTestResult.date_time r);
    (apply preserves_db_ret || apply preserves_db_raise).
Qed.

Lemma preserves_db_float (x : option Z) : preserves_db (float x).
Proof. destruct x; [apply preserves_db_ret | apply preserves_db_raise]. Qed.

Create HintDb frame.
#[local] Hint Resolve preserves_db_ret preserves_db_raise preserves_db_lift
  preserves_db_session_execute preserves_db_logger_info preserves_db_plt
  preserves_db_datetime_now preserves_db_LineSchema
  preserves_db_SpeedTestResultSchema preserves_db_float : frame.

(** Peel the binds and loops of a function body. *)
Ltac frame :=
  repeat first
    [ apply preserves_db_bind; [| intro]
    | apply preserves_db_for_each; intro
    | apply preserves_db_for_; intro
    | solve [auto with frame] ].

(** C8. Every data-access function leaves the database as it found it: after
    a call, whether it returned or raised, the tables [lines],
    [quota_results] and [speed_test_results] are what they were before. *)
Theorem crud_preserves_db (id line_id : option Z) (days : Z) :
  preserves_db (read_lines id) /\
  preserves_db (read_quota_results line_id) /\
  preserves_db (read_speed_test_results line_id) /\
  preserves_db get_total_dataused_per_line /\
  preserves_db get_count_per_renewal_cost /\
  preserves_db remaining_balance_by_line /\
  preserves_db (average_speeds_per_line days) /\
  preserves_db (average_ping_per_line days).
Proof.
  repeat apply conj.
  - unfold read_lines. frame.
  - unfold read_quota_results. frame.
  - unfold read_speed_test_results. frame.
  - unfold get_total_dataused_per_line. frame.
  - unfold get_count_per_renewal_cost. frame.
  - unfold remaining_balance_by_line. frame.
  - unfold average_speeds_per_line. frame.
  - unfold average_ping_per_line. frame.
Qed.

(** ** Optional filters *)

(** C2. A filter value of [0] is falsy, hence treated as absent: with
    [id=0] or [line_id=0] each read function behaves exactly as without the
    argument (same value or exception, same log). *)
Theorem zero_filter_is_no_filter (w : world) :
  read_lines (Some 0) w = read_lines None w /\
  read_quota_results (Some 0) w = read_quota_results None w /\
  read_speed_test_results (Some 0) w = read_speed_test_results None w.
Proof. repeat apply conj; reflexivity. Qed.

(** ** Running the functions *)

Lemma for_each_pure {A B} (f : A -> M B) (g : A -> B) (xs : list A) :
  (forall x w, f x w = (inr (g x), w)) ->
  forall w, for_each f xs w = (inr (map g xs), w).
Proof.
  intros Hf. induction xs as [| x xs IH]; intro w; simpl.
  - reflexivity.
  - unfold bind. rewrite Hf, IH. reflexivity.
Qed.

Lemma window_start_in_range (now : datetime) (days : Z) :
  window_in_range now days -> window_start now days = inr (date_of now - days).
Proof.
  intros [[H1 H2] [H3 H4]]. unfold window_start, timedelta, date_sub.
  apply Z.leb_le in H1, H2, H3, H4.
  rewrite H1, H2. simpl. rewrite H3, H4. reflexivity.
Qed.

Lemma window_start_inv (now : datetime) (days : Z) (start_date : date) :
  window_start now days = inr start_date ->
  window_in_range now days /\ start_date = date_of now - days.
Proof.
  unfold window_start, timedelta, date_sub, window_in_range.
  destruct (-999999999 <=? days) eqn:H1; [| discriminate].
  destruct (days <=? 999999999) eqn:H2; [| discriminate].
  simpl.
  destruct (MINORDINAL <=? date_of now - days) eqn:H3; [| discriminate].
  destruct (date_of now - days <=? MAXORDINAL) eqn:H4; [| discriminate].
  simpl. intro H. inversion H.
  apply Z.leb_le in H1, H2, H3, H4. repeat split; assumption.
Qed.

Lemma average_speeds_per_line_result (days : Z) (w : world) :
  result (average_speeds_per_line days) w =
  match window_start (clock w) days with
  | inl e => inl e
  | inr start_date =>
      inr (map AverageSpeedsPerLine.from_attributes
             (average_speeds_stmt start_date (date_of (clock w)) (db w)))
  end.
Proof.
  unfold result, average_speeds_per_line, window_start, bind, lift, datetime_now.
  destruct (timedelta days) as [e | delta]; [reflexivity |].
  destruct (date_sub (date_of (clock w)) delta) as [e | start_date]; [reflexivity |].
  unfold session_execute, logger_info.
  rewrite (for_each_pure _ AverageSpeedsPerLine.from_attributes); reflexivity.
Qed.

Lemma average_ping_per_line_result (days : Z) (w : world) :
  result (average_ping_per_line days) w =
  match window_start (clock w) days with
  | inl e => inl e
  | inr start_date =>
      inr (map AveragePingPerLine.from_attributes
             (average_ping_stmt start_date (date_of (clock w)) (db w)))
  end.
Proof.
  unfold result, average_ping_per_line, window_start, bind, lift, datetime_now.
  destruct (timedelta days) as [e | delta]; [reflexivity |].
  destruct (date_sub (date_of (clock w)) delta) as [e | start_date]; [reflexivity |].
  unfold session_execute, logger_info.
  rewrite (for_each_pure _ AveragePingPerLine.from_attributes); reflexivity.
Qed.

(** ** GROUP BY *)

Lemma key_eqb_eq (a b : option Z) : key_eqb a b = true <-> a = b.
Proof.
  unfold key_eqb. destruct (option_Z_eq_dec a b); split; congruence.
Qed.

Section GroupBy.
Context {A B : Type}.
Variable key : A -> option Z.
Variable agg : list A -> B.

Lemma aggregate_keys (rows : list A) :
  map fst (aggregate key agg rows) = nodup option_Z_eq_dec (map key rows).
Proof.
  unfold aggregate, group_by. rewrite !map_map. simpl. apply map_id.
Qed.

Lemma aggregate_keys_NoDup (rows : list A) :
  NoDup (map fst (aggregate key agg rows)).
Proof. rewrite aggregate_keys. apply NoDup_nodup. Qed.




End GroupBy.

(** C10. The group-by keys of each aggregation are pairwise distinct: no
    [line_id] occurs twice in a list returned by [average_speeds_per_line]
    or [average_ping_per_line], and no renewal cost occurs twice in the
    aggregation of [get_count_per_renewal_cost]. *)
Theorem aggregation_keys_distinct (w : world) (days : Z) :
  (forall rows, result (average_speeds_per_line days) w = inr rows ->
     NoDup (map AverageSpeedsPerLine.line_id rows)) /\
  (forall rows, result (average_ping_per_line days) w = inr rows ->
     NoDup (map AveragePingPerLine.line_id rows)) /\
  NoDup (map fst (count_per_renewal_cost_stmt (db w))).
Proof.
  repeat apply conj.
  - intros rows. rewrite average_speeds_per_line_result.
    destruct (window_start (clock w) days) as [e | s]; [discriminate |].
    intro H. inversion H. rewrite map_map. simpl.
    apply aggregate_keys_NoDup.
  - intros rows. rewrite average_ping_per_line_result.
    destruct (window_start (clock w) days) as [e | s]; [discriminate |].
    intro H. inversion H. rewrite map_map. simpl.
    apply aggregate_keys_NoDup.
  - apply aggregate_keys_NoDup.
Qed.

Lemma aggregation_keys_distinct_witness :
  NoDup (map AverageSpeedsPerLine.line_id
           [AverageSpeedsPerLine.mk (Some 1) (Some (50 # 1)) (Some (100 # 1))]) /\
  NoDup (map AveragePingPerLine.line_id
           [AveragePingPerLine.mk (Some 1) (Some (20 # 1))]).
Proof.
  split.
  - apply (proj1 (aggregation_keys_distinct (Fixtures.test_world 10) 30)).
    reflexivity.
  - apply (proj1 (proj2 (aggregation_keys_distinct (Fixtures.test_world 10) 30))).
    reflexivity.
Defined.

(** ** Aggregates *)







Lemma total_cons (x : Z) (xs : list Z) : total (x :: xs) = x + total xs.
Proof. reflexivity. Qed.












(** ** ORDER BY *)

Lemma datetime_leb_total (a b : option datetime) :
  datetime_leb a b = false -> datetime_leb b a = true.
Proof.
  destruct a as [x |], b as [y |]; simpl; try congruence.
  intro H. apply Z.leb_gt in H. apply Z.leb_le. lia.
Qed.

Lemma datetime_leb_trans (a b c : option datetime) :
  datetime_leb a b = true -> datetime_leb b c = true -> datetime_leb a c = true.
Proof.
  destruct a as [x |], b as [y |], c as [z |]; simpl; try congruence.
  rewrite !Z.leb_le. lia.
Qed.

Section OrderBy.
Context {A : Type}.
Variable key : A -> option datetime.

Lemma insert_desc_perm (x : A) (rows : list A) :
  Permutation (insert_desc key x rows) (x :: rows).
Proof.
  induction rows as [| y rows IH]; simpl.
  - apply Permutation_refl.
  - destruct (datetime_leb (key y) (key x)).
    + apply Permutation_refl.
    + apply perm_trans with (y :: x :: rows).
      * apply perm_skip. exact IH.
      * apply perm_swap.
Qed.

Lemma order_by_desc_perm (rows : list A) :
  Permutation (order_by_desc key rows) rows.
Proof.
  induction rows as [| x rows IH]; simpl.
  - apply perm_nil.
  - apply perm_trans with (x :: order_by_desc key rows).
    + apply insert_desc_perm.
    + apply perm_skip. exact IH.
Qed.

Lemma insert_desc_sorted (x : A) (rows : list A) :
  Sorted (not_before key) rows -> Sorted (not_before key) (insert_desc key x rows).
Proof.
  induction rows as [| y rows IH]; simpl; intro Hs.
  - repeat constructor.
  - destruct (datetime_leb (key y) (key x)) eqn:Hyx.
    + constructor; [exact Hs |]. constructor. exact Hyx.
    + inversion Hs as [| ? ? Hs' Hhd]; subst.
      constructor; [apply IH; exact Hs' |].
      destruct rows as [| z rows]; simpl.
      * constructor. apply datetime_leb_total. exact Hyx.
      * destruct (datetime_leb (key z) (key x)).
        -- constructor. apply datetime_leb_total. exact Hyx.
        -- inversion Hhd; subst. constructor. assumption.
Qed.

Lemma order_by_desc_sorted (rows : list A) :
  descending key (order_by_desc key rows).
Proof.
  apply Sorted_StronglySorted.
  - intros a b c Hab Hbc. unfold not_before in *.
    exact (datetime_leb_trans _ _ _ Hbc Hab).
  - induction rows as [| x rows IH]; simpl.
    + constructor.
    + apply insert_desc_sorted. exact IH.
Qed.
End OrderBy.

Lemma descending_map {A B} (f : A -> B) (key : B -> option datetime) (rows : list A) :
  descending (fun r => key (f r)) rows -> descending key (map f rows).
Proof.
  unfold descending. induction 1 as [| a rows Hs IH Hall]; simpl.
  - constructor.
  - constructor; [exact IH |].
    apply Forall_map. exact Hall.
Qed.

Lemma sql_eq_key_eqb (column : option Z) (i : Z) :
  sql_eq column (Some i) = key_eqb column (Some i).
Proof.
  unfold sql_eq, key_eqb. destruct column as [v |].
  - destruct (Z.eqb_spec v i) as [Heq | Hne];
      destruct (option_Z_eq_dec (Some v) (Some i)); congruence.
  - destruct (option_Z_eq_dec None (Some i)); congruence.
Qed.

Lemma read_quota_results_result (line_id : option Z) (w : world) :
  result (read_quota_results line_id) w =
  inr (map QuotaResultSchema.from_attributes
         (read_quota_results_stmt line_id (db w))).
Proof.
  unfold result, read_quota_results, bind, session_execute, logger_info.
  rewrite (for_each_pure _ QuotaResultSchema.from_attributes); reflexivity.
Qed.

(** X1. [read_quota_results] with no filter or with a non-zero one returns
    (it never raises) the records of exactly the matching quota results,
    most recent first. *)
Theorem read_quota_results_spec (line_id : option Z) (w : world) :
  line_id <> Some 0 ->
  exists rows,
    result (read_quota_results line_id) w = inr rows /\
    Permutation rows
      (map QuotaResultSchema.from_attributes (matching line_id (db w))) /\
    descending QuotaResultSchema.date_time rows.
Proof.
  intro Hnz. eexists. split; [apply read_quota_results_result |]. split.
  - apply Permutation_map. unfold read_quota_results_stmt, matching.
    destruct line_id as [i |]; simpl.
    + destruct (Z.eqb_spec i 0) as [-> | Hi]; [congruence |]. simpl.
      unfold where_, group_of.
      rewrite (filter_ext _ (fun r => key_eqb (QuotaResults.line_id r) (Some i))).
      * apply order_by_desc_perm.
      * intro r. apply sql_eq_key_eqb.
    + apply order_by_desc_perm.
  - apply descending_map. apply (order_by_desc_sorted QuotaResults.date_time).
Qed.

Lemma read_quota_results_spec_witness :
  exists rows,
    result (read_quota_results (Some 1)) (Fixtures.test_world 10) = inr rows /\
    Permutation rows
      (map QuotaResultSchema.from_attributes
         (matching (Some 1) (Fixtures.test_db 10))) /\
    descending QuotaResultSchema.date_time rows.
Proof.
  apply (read_quota_results_spec (Some 1) (Fixtures.test_world 10)).
  discriminate.
Defined.

(** C3. With the filter [line_id=0], [read_quota_results] does not return
    the quota results of line 0: on the database of the tests, which has
    none, it returns the quota result of line 1. *)
Theorem read_quota_results_zero_filter :
  matching (Some 0) (Fixtures.test_db 10) = [] /\
  result (read_quota_results (Some 0)) (Fixtures.test_world 10) =
    inr [QuotaResultSchema.from_attributes Fixtures.quota_result].
Proof. split; reflexivity. Qed.

(** ** Reading lines *)

Lemma for_each_LineSchema (xs : list Line.t) :
  (forall L, In L xs -> complete L) ->
  exists ys,
    Forall2 represents ys xs /\
    forall w, for_each LineSchema.model_validate xs w = (inr ys, w).
Proof.
  induction xs as [| L xs IH]; intro Hc.
  - exists []. split; [constructor | reflexivity].
  - destruct IH as [ys [Hrep Hrun]].
    { intros L' HL'. apply Hc. right. exact HL'. }
    destruct (Hc L (or_introl eq_refl)) as [Hn Hm].
    destruct (Line.line_number L) as [n |] eqn:En; [| congruence].
    destruct (Line.name L) as [m |] eqn:Em; [| congruence].
    exists (LineSchema.mk (Line.id L) n m :: ys). split.
    + constructor; [| exact Hrep].
      unfold represents. simpl. auto.
    + intro w. simpl. unfold bind, LineSchema.model_validate.
      rewrite En, Em. unfold ret at 1. rewrite Hrun. reflexivity.
Qed.

Lemma read_lines_result (id : option Z) (w : world) (ys : list LineSchema.t) :
  (forall w', for_each LineSchema.model_validate (read_lines_stmt id (db w)) w'
              = (inr ys, w')) ->
  result (read_lines id) w = inr ys.
Proof.
  intro Hrun. unfold result, read_lines, bind, session_execute, logger_info.
  rewrite Hrun. reflexivity.
Qed.

Lemma filter_none {A} (p : A -> bool) (xs : list A) :
  (forall x, In x xs -> p x = false) -> filter p xs = [].
Proof.
  induction xs as [| x xs IH]; simpl; intro H; [reflexivity |].
  rewrite (H x (or_introl eq_refl)). apply IH.
  intros y Hy. apply H. right. exact Hy.
Qed.

(** A primary key selects its row and no other. *)
Lemma select_by_primary_key (ls : list Line.t) (L : Line.t) :
  NoDup (map Line.id ls) -> In L ls ->
  filter (fun l => sql_eq (Some (Line.id l)) (Some (Line.id L))) ls = [L].
Proof.
  induction ls as [| l ls IH]; simpl; intros Hnd Hin; [contradiction |].
  inversion Hnd as [| ? ? Hnotin Hnd']; subst.
  destruct Hin as [-> | Hin].
  - rewrite Z.eqb_refl. f_equal.
    apply filter_none. intros l' Hl'.
    apply Z.eqb_neq. intro Heq.
    apply Hnotin. rewrite <- Heq. apply in_map. exact Hl'.
  - destruct (Z.eqb_spec (Line.id l) (Line.id L)) as [Heq | Hne].
    + exfalso. apply Hnotin. rewrite Heq. apply in_map. exact Hin.
    + apply IH; assumption.
Qed.

(** C6, as amended. In a database whose lines all have a [line_number] and
    a [name], [read_lines()] returns a list that includes every stored line;
    and for every stored line [L] with a non-zero id that has a
    [line_number] and a [name], [read_lines(id=L.id)] returns exactly one
    record, equal to [L]. *)
Theorem read_lines_spec (w : world) :
  primary_keys (db w) ->
  ((forall L, In L (lines (db w)) -> complete L) -> read_lines_includes_all w) /\
  (forall L, In L (lines (db w)) -> Line.id L <> 0 -> complete L ->
     read_lines_finds w L).
Proof.
  intros [Hpk _ _]. split.
  - intro Hc. destruct (for_each_LineSchema _ Hc) as [ys [Hrep Hrun]].
    exists ys. split.
    + apply read_lines_result. exact Hrun.
    + intros L HL. clear Hrun Hc Hpk.
      induction Hrep as [| s L' ys ls Hs Hrep IH]; [contradiction |].
      destruct HL as [-> | HL].
      * exists s. split; [left; reflexivity | exact Hs].
      * destruct (IH HL) as [s' [Hin Hs']]. exists s'. split; [right |]; assumption.
  - intros L HL Hid Hc.
    assert (Hstmt : read_lines_stmt (Some (Line.id L)) (db w) = [L]).
    { unfold read_lines_stmt, where_, truthy.
      destruct (Z.eqb_spec (Line.id L) 0) as [H0 | _]; [contradiction |].
      simpl. apply select_by_primary_key; assumption. }
    destruct (for_each_LineSchema [L]) as [ys [Hrep Hrun]].
    { intros L' [<- | []]. exact Hc. }
    inversion Hrep as [| s ? ys' ? Hs Hnil]; subst. inversion Hnil; subst.
    exists s. split; [| exact Hs].
    apply read_lines_result. rewrite Hstmt. exact Hrun.
Qed.

Lemma test_db_primary_keys (d : Z) : primary_keys (Fixtures.test_db d).
Proof.
  split; simpl; (constructor; [intros [] | constructor]).
Qed.

Lemma read_lines_spec_witness :
  read_lines_includes_all (Fixtures.test_world 10) /\
  read_lines_finds (Fixtures.test_world 10) Fixtures.new_line.
Proof.
  assert (Hc : complete Fixtures.new_line) by (split; discriminate).
  pose proof (read_lines_spec (Fixtures.test_world 10) (test_db_primary_keys 10))
    as [Hall Hone].
  split.
  - apply Hall. intros L [<- | []]. exact Hc.
  - apply Hone; [left; reflexivity | discriminate | exact Hc].
Defined.

(** C6 as stated fails: a stored line without [line_number] and [name] makes
    both [read_lines()] and [read_lines(id=1)] raise instead of returning. *)
Lemma read_lines_blank_line :
  primary_keys (db blank_world) /\
  In blank_line (lines (db blank_world)) /\
  Line.id blank_line <> 0 /\
  ~ read_lines_includes_all blank_world /\
  ~ read_lines_finds blank_world blank_line.
Proof.
  repeat apply conj.
  - split; simpl; repeat (constructor; try (intros [])).
  - left. reflexivity.
  - discriminate.
  - intros [rows [H _]]. discriminate H.
  - intros [s [H _]]. discriminate H.
Qed.

(** ** The remaining balance *)

Lemma for_logger_info {A} (xs : list A) (msg : A -> string) (w : world) :
  result (for_ xs (fun x => logger_info (msg x))) w = inr tt.
Proof.
  revert w. induction xs as [| x xs IH]; intro w; simpl.
  - reflexivity.
  - unfold result, bind in *. simpl. apply IH.
Qed.

(** [remaining_balance_by_line] always returns [None]. *)
Lemma remaining_balance_by_line_returns_None (w : world) :
  result remaining_balance_by_line w = inr tt.
Proof.
  unfold remaining_balance_by_line, result, bind, session_execute. simpl.
  apply for_logger_info.
Qed.

(** On every database the handler fails to produce a response body. *)
Lemma get_remaining_balance_by_line_fails (w : world) :
  result get_remaining_balance_by_line w = inl ResponseValidationError.
Proof.
  unfold get_remaining_balance_by_line, result, bind.
  pose proof (remaining_balance_by_line_returns_None w) as H.
  unfold result in H.
  destruct (remaining_balance_by_line w) as [[e | []] w']; simpl in *.
  - discriminate.
  - reflexivity.
Qed.

(** C4. On the database of the tests the sum of balance per line is
    [(1, 50)]; [remaining_balance_by_line] computes it and logs it, but
    returns [None], and the [/remaining-balance-by-line] handler yields no
    list: its response fails validation. *)
Theorem remaining_balance_endpoint_returns_nothing :
  remaining_balance_stmt (Fixtures.test_db 10) = [(Some 1, Some 50)] /\
  result remaining_balance_by_line (Fixtures.test_world 10) = inr tt /\
  output (final remaining_balance_by_line (Fixtures.test_world 10)) =
    [Info "Fetched remaining balances for 1 lines.";
     Info "Line ID: 1, Total Remaining Balance: 50"] /\
  result get_remaining_balance_by_line (Fixtures.test_world 10) =
    inl ResponseValidationError.
Proof. repeat apply conj; reflexivity. Qed.

(** ** The time window *)

Lemma usec_per_day_pos : 0 < usec_per_day.
Proof. reflexivity. Qed.


(** A window whose start lies after its end holds no row. *)
Lemma in_window_empty (start_date end_date : date) (d : Database) :
  end_date < start_date -> in_window start_date end_date d = [].
Proof.
  intro Hlt. unfold in_window. apply filter_none. intros r _.
  unfold between. destruct (SpeedTestResult.date_time r) as [t |]; [| reflexivity].
  apply andb_false_iff.
  destruct (Z.leb_spec (midnight start_date) t) as [Hs | Hs]; [right | left; reflexivity].
  apply Z.leb_gt. unfold midnight in *.
  pose proof usec_per_day_pos. nia.
Qed.

(** C9, as amended. For every negative [days] for which the date arithmetic
    stays in range (a timedelta of at most 999999999 days, a start date not
    after [date.max]), the window starts after it ends and both functions
    return the empty list, on every database. *)
Theorem negative_days_empty (w : world) (days : Z) :
  days < 0 ->
  window_in_range (clock w) days ->
  averages_empty w days.
Proof.
  intros Hneg Hrange. unfold averages_empty.
  rewrite average_speeds_per_line_result, average_ping_per_line_result.
  rewrite (window_start_in_range _ _ Hrange).
  unfold average_speeds_stmt, average_ping_stmt.
  rewrite in_window_empty by lia.
  split; reflexivity.
Qed.

Lemma negative_days_empty_witness : averages_empty (Fixtures.test_world 10) (-1).
Proof.
  apply negative_days_empty.
  - reflexivity.
  - unfold window_in_range. vm_compute. repeat split; discriminate.
Defined.

(** C9 as stated fails: [days = -3000000] is negative, but the start date
    would lie beyond the year 9999 and both functions raise. *)
Lemma negative_days_overflow :
  -3000000 < 0 /\
  result (average_speeds_per_line (-3000000)) (Fixtures.test_world 10)
    = inl OverflowError /\
  result (average_ping_per_line (-3000000)) (Fixtures.test_world 10)
    = inl OverflowError /\
  ~ averages_empty (Fixtures.test_world 10) (-3000000).
Proof.
  repeat apply conj; try reflexivity.
  intros [H _]. discriminate H.
Qed.


(** ** Averages *)








(** * Further properties *)

(** ** Validation of the rows read *)

Section Validation.
Context {A B : Type}.
Variable validate : A -> M B.
Variable ok : B -> A -> Prop.
Hypothesis validate_outcome :
  forall a w,
    (exists b, validate a w = (inr b, w) /\ ok b a) \/
    (validate a w = (inl ValidationError, w) /\ ~ exists b, ok b a).

Lemma for_each_validate_ok (xs : list A) :
  (forall a, In a xs -> exists b, ok b a) ->
  forall w, exists bs, for_each validate xs w = (inr bs, w) /\ Forall2 ok bs xs.
Proof.
  induction xs as [| a xs IH]; intros Hok w.
  - exists []. split; [reflexivity | constructor].
  - destruct (validate_outcome a w) as [[b [Hb Hab]] | [_ Hbad]].
    + destruct (IH (fun a' Ha' => Hok a' (or_intror Ha')) w) as [bs [Hbs Hall]].
      exists (b :: bs). split; [| constructor; assumption].
      simpl. unfold bind. rewrite Hb, Hbs. reflexivity.
    + exfalso. apply Hbad. apply Hok. left. reflexivity.
Qed.

Lemma for_each_validate_fail (xs : list A) :
  (exists a, In a xs /\ ~ exists b, ok b a) ->
  forall w, for_each validate xs w = (inl ValidationError, w).
Proof.
  induction xs as [| a xs IH]; intros [a' [Hin Hbad]] w; [contradiction |].
  simpl. unfold bind.
  destruct (validate_outcome a w) as [[b [Hb Hab]] | [Hraise _]].
  - rewrite Hb. destruct Hin as [<- | Hin].
    + exfalso. apply Hbad. exists b. exact Hab.
    + rewrite IH; [reflexivity |]. exists a'. split; assumption.
  - rewrite Hraise. reflexivity.
Qed.
End Validation.

Lemma complete_represents (L : Line.t) : complete L <-> exists s, represents s L.
Proof.
  unfold complete, represents. split.
  - intros [Hn Hm].
    destruct (Line.line_number L) as [n |] eqn:En; [| congruence].
    destruct (Line.name L) as [m |] eqn:Em; [| congruence].
    exists (LineSchema.mk (Line.id L) n m). simpl. auto.
  - intros [s [_ [Hn Hm]]]. rewrite Hn, Hm. split; discriminate.
Qed.

Lemma LineSchema_outcome (L : Line.t) (w : world) :
  (exists s, LineSchema.model_validate L w = (inr s, w) /\ represents s L) \/
  (LineSchema.model_validate L w = (inl ValidationError, w) /\
   ~ exists s, represents s L).
Proof.
  unfold LineSchema.model_validate, represents.
  destruct (Line.line_number L) as [n |] eqn:En;
    destruct (Line.name L) as [m |] eqn:Em.
  - left. exists (LineSchema.mk (Line.id L) n m). simpl. auto.
  - right. split; [reflexivity |]. intros [s [_ [_ H]]]. discriminate.
  - right. split; [reflexivity |]. intros [s [_ [H _]]]. discriminate.
  - right. split; [reflexivity |]. intros [s [_ [H _]]]. discriminate.
Qed.

Lemma SpeedTestResultSchema_outcome (r : SpeedTestResult.t) (w : world) :
  (exists s, SpeedTestResultSchema.model_validate r w = (inr s, w) /\ records s r) \/
  (SpeedTestResultSchema.model_validate r w = (inl ValidationError, w) /\
   ~ exists s, records s r).
Proof.
  unfold SpeedTestResultSchema.model_validate, records.
  destruct (SpeedTestResult.process_id r) as [p |] eqn:E1;
    [| right; split; [reflexivity | intros [s H]; decompose [and] H; discriminate]].
  destruct (SpeedTestResult.line_id r) as [l |] eqn:E2;
    [| right; split; [reflexivity | intros [s H]; decompose [and] H; discriminate]].
  destruct (SpeedTestResult.ping r) as [pg |] eqn:E3;
    [| right; split; [reflexivity | intros [s H]; decompose [and] H; discriminate]].
  destruct (SpeedTestResult.upload_speed r) as [u |] eqn:E4;
    [| right; split; [reflexivity | intros [s H]; decompose [and] H; discriminate]].
  destruct (SpeedTestResult.download_speed r) as [dl |] eqn:E5;
    [| right; split; [reflexivity | intros [s H]; decompose [and] H; discriminate]].
  destruct (SpeedTestResult.public_ip r) as [ip |] eqn:E6;
    [| right; split; [reflexivity | intros [s H]; decompose [and] H; discriminate]].
  destruct (SpeedTestResult.date_time r) as [t |] eqn:E7;
    [| right; split; [reflexivity | intros [s H]; decompose [and] H; discriminate]].
  left. exists (SpeedTestResultSchema.mk (SpeedTestResult.id r) p l pg u dl ip t).
  simpl. repeat split; reflexivity.
Qed.

Lemma read_lines_stmt_asked (id : option Z) (d : Database) :
  read_lines_stmt id d = lines_asked id d.
Proof.
  unfold read_lines_stmt, lines_asked, truthy, where_.
  destruct id as [i |]; [| reflexivity].
  destruct (Z.eq_dec i 0) as [-> | Hi]; [reflexivity |].
  destruct (Z.eqb_spec i 0) as [H0 | _]; [contradiction | reflexivity].
Qed.

Lemma read_speed_test_results_stmt_asked (line_id : option Z) (d : Database) :
  read_speed_test_results_stmt line_id d = speed_tests_asked line_id d.
Proof.
  unfold read_speed_test_results_stmt, speed_tests_asked, truthy, where_, group_of.
  destruct line_id as [i |]; [| reflexivity].
  destruct (Z.eq_dec i 0) as [-> | Hi]; [reflexivity |].
  destruct (Z.eqb_spec i 0) as [H0 | _]; [contradiction |]. simpl.
  apply filter_ext. intro r. apply sql_eq_key_eqb.
Qed.

Lemma read_lines_run (id : option Z) (w : world) :
  result (read_lines id) w
  = fst (for_each LineSchema.model_validate (lines_asked id (db w))
           (final (logger_info ("Fetched " ++ str (len (lines_asked id (db w)))
                                ++ " lines from the database.")) w)).
Proof.
  unfold result, final, read_lines, bind, session_execute, logger_info.
  simpl. rewrite read_lines_stmt_asked.
  destruct (for_each _ _ _) as [[e | rows] w']; reflexivity.
Qed.

Lemma read_speed_test_results_run (line_id : option Z) (w : world) :
  result (read_speed_test_results line_id) w
  = fst (for_each SpeedTestResultSchema.model_validate
           (speed_tests_asked line_id (db w))
           (final (logger_info
                     ("Fetched " ++ str (len (speed_tests_asked line_id (db w)))
                      ++ " speed test results from the database.")) w)).
Proof.
  unfold result, final, read_speed_test_results, bind, session_execute, logger_info.
  simpl. rewrite read_speed_test_results_stmt_asked.
  destruct (for_each _ _ _) as [[e | rows] w']; reflexivity.
Qed.

(** X2. [read_lines] returns the records of the lines asked for, in table
    order, when each of them has a [line_number] and a [name]; when one of
    them lacks either, it raises a validation error, whatever the other
    lines are. *)
Theorem read_lines_outcome (id : option Z) (w : world) :
  let asked := lines_asked id (db w) in
  ((forall L, In L asked -> complete L) ->
     exists rows,
       result (read_lines id) w = inr rows /\ Forall2 represents rows asked) /\
  ((exists L, In L asked /\ ~ complete L) ->
     result (read_lines id) w = inl ValidationError).
Proof.
  intro asked. rewrite read_lines_run. fold asked. split.
  - intro Hc.
    destruct (for_each_validate_ok _ represents LineSchema_outcome asked) with
      (w := final (logger_info ("Fetched " ++ str (len asked)
                                ++ " lines from the database.")) w)
      as [rows [Hrun Hall]].
    { intros L HL. apply complete_represents. apply Hc. exact HL. }
    exists rows. rewrite Hrun. split; [reflexivity | exact Hall].
  - intros [L [HL Hbad]].
    rewrite (for_each_validate_fail _ represents LineSchema_outcome asked);
      [reflexivity |].
    exists L. split; [exact HL |]. intro H. apply Hbad.
    apply complete_represents. exact H.
Qed.

Lemma read_lines_outcome_witness :
  result (read_lines (Some 1)) blank_world = inl ValidationError /\
  exists rows,
    result (read_lines (Some 1)) (Fixtures.test_world 10) = inr rows /\
    Forall2 represents rows [Fixtures.new_line].
Proof.
  split.
  - apply (read_lines_outcome (Some 1) blank_world).
    exists blank_line. split; [left; reflexivity |].
    intros [H _]. apply H. reflexivity.
  - apply (read_lines_outcome (Some 1) (Fixtures.test_world 10)).
    intros L [<- | []]. split; discriminate.
Defined.

(** X4. [read_speed_test_results] returns the records of the speed tests
    asked for (those of the line, or all of them when [line_id] is [None]
    or [0]), in table order, when every column of each is filled in; when
    one of them has a null column, it raises a validation error. *)
Theorem read_speed_test_results_outcome (line_id : option Z) (w : world) :
  let asked := speed_tests_asked line_id (db w) in
  ((forall r, In r asked -> filled r) ->
     exists rows,
       result (read_speed_test_results line_id) w = inr rows /\
       Forall2 records rows asked) /\
  ((exists r, In r asked /\ ~ filled r) ->
     result (read_speed_test_results line_id) w = inl ValidationError).
Proof.
  intro asked. rewrite read_speed_test_results_run. fold asked. split.
  - intro Hc.
    destruct (for_each_validate_ok _ records SpeedTestResultSchema_outcome asked)
      with (w := final (logger_info
                          ("Fetched " ++ str (len asked)
                           ++ " speed test results from the database.")) w)
      as [rows [Hrun Hall]].
    { exact Hc. }
    exists rows. rewrite Hrun. split; [reflexivity | exact Hall].
  - intros [r [Hr Hbad]].
    rewrite (for_each_validate_fail _ records SpeedTestResultSchema_outcome asked);
      [reflexivity |].
    exists r. split; assumption.
Qed.

Lemma read_speed_test_results_outcome_witness :
  exists rows,
    result (read_speed_test_results (Some 1)) (Fixtures.test_world 10) = inr rows /\
    Forall2 records rows [Fixtures.speed_test Fixtures.noon 10].
Proof.
  apply (read_speed_test_results_outcome (Some 1) (Fixtures.test_world 10)).
  intros r [<- | []].
  exists (SpeedTestResultSchema.mk 1 "speed-123" 1 20 50 100 "192.168.1.1"
            (days_before Fixtures.noon 10)).
  repeat split; reflexivity.
Defined.

(** X3. A non-zero id that no row carries is not an error: [read_lines],
    [read_quota_results] and [read_speed_test_results] return the empty
    list, also when the table holds rows that would not validate. *)
Theorem unknown_id_reads_nothing (w : world) (i : Z) :
  i <> 0 ->
  (~ In i (map Line.id (lines (db w))) ->
     result (read_lines (Some i)) w = inr []) /\
  (~ In (Some i) (map QuotaResults.line_id (quota_results (db w))) ->
     result (read_quota_results (Some i)) w = inr []) /\
  (~ In (Some i) (map SpeedTestResult.line_id (speed_test_results (db w))) ->
     result (read_speed_test_results (Some i)) w = inr []).
Proof.
  intro Hi. repeat apply conj.
  - intro Hnone. rewrite read_lines_run. unfold lines_asked.
    destruct (Z.eq_dec i 0) as [H0 | _]; [contradiction |].
    rewrite filter_none; [reflexivity |].
    intros L HL. apply Z.eqb_neq. intro Heq. apply Hnone.
    rewrite <- Heq. apply in_map. exact HL.
  - intro Hnone. rewrite read_quota_results_result.
    unfold read_quota_results_stmt, truthy, where_.
    destruct (Z.eqb_spec i 0) as [H0 | _]; [contradiction |]. cbn [negb].
    rewrite filter_none; [reflexivity |].
    intros r Hr. cbv beta. rewrite sql_eq_key_eqb.
    destruct (key_eqb (QuotaResults.line_id r) (Some i)) eqn:E; [| reflexivity].
    exfalso. apply Hnone. apply key_eqb_eq in E. rewrite <- E.
    apply in_map. exact Hr.
  - intro Hnone. rewrite read_speed_test_results_run. unfold speed_tests_asked.
    destruct (Z.eq_dec i 0) as [H0 | _]; [contradiction |].
    unfold group_of. rewrite filter_none; [reflexivity |].
    intros r Hr.
    destruct (key_eqb (SpeedTestResult.line_id r) (Some i)) eqn:E; [| reflexivity].
    exfalso. apply Hnone. apply key_eqb_eq in E. rewrite <- E.
    apply in_map. exact Hr.
Qed.

Lemma unknown_id_reads_nothing_witness :
  result (read_lines (Some 7)) blank_world = inr [] /\
  result (read_quota_results (Some 7)) (Fixtures.test_world 10) = inr [] /\
  result (read_speed_test_results (Some 7)) (Fixtures.test_world 10) = inr [].
Proof.
  repeat apply conj.
  - apply (unknown_id_reads_nothing blank_world 7); [discriminate |].
    simpl. intros [H | []]. discriminate.
  - apply (unknown_id_reads_nothing (Fixtures.test_world 10) 7); [discriminate |].
    simpl. intros [H | []]. discriminate.
  - apply (unknown_id_reads_nothing (Fixtures.test_world 10) 7); [discriminate |].
    simpl. intros [H | []]. discriminate.
Defined.

(** ** The output is only appended to *)

Lemma appends_only_ret {A} (a : A) : appends_only (ret a).
Proof. intro w. split; [reflexivity |]. exists []. symmetry. apply app_nil_r. Qed.

Lemma appends_only_raise {A} (e : exn) : appends_only (@raise A e).
Proof. intro w. split; [reflexivity |]. exists []. symmetry. apply app_nil_r. Qed.

Lemma appends_only_lift {A} (r : exn + A) : appends_only (lift r).
Proof. intro w. split; [reflexivity |]. exists []. symmetry. apply app_nil_r. Qed.

Lemma appends_only_session_execute {R} (stmt : Database -> R) :
  appends_only (session_execute stmt).
Proof. intro w. split; [reflexivity |]. exists []. symmetry. apply app_nil_r. Qed.

Lemma appends_only_datetime_now : appends_only datetime_now.
Proof. intro w. split; [reflexivity |]. exists []. symmetry. apply app_nil_r. Qed.

Lemma appends_only_logger_info (msg : string) : appends_only (logger_info msg).
Proof. intro w. split; [reflexivity |]. exists [Info msg]. reflexivity. Qed.

Lemma appends_only_plt (c : plt_call) : appends_only (plt c).
Proof. intro w. split; [reflexivity |]. exists [Plt c]. reflexivity. Qed.




Lemma appends_only_LineSchema (l : Line.t) :
  appends_only (LineSchema.model_validate l).
Proof.
  unfold LineSchema.model_validate.
  destruct (Line.line_number l), (Line.name l);
    (apply appends_only_ret || apply appends_only_raise).
Qed.

Lemma appends_only_SpeedTestResultSchema (r : SpeedTestResult.t) :
  appends_only (SpeedTestResultSchema.model_validate r).
Proof.
  unfold SpeedTestResultSchema.model_validate.
  destruct (SpeedTestResult.process_id r), (SpeedTestResult.line_id r),
    (SpeedTestResult.ping r), (SpeedTestResult.upload_speed r),
    (SpeedTestResult.download_speed r), (SpeedTestResult.public_ip r),
    (SpeedTestResult.date_time r);
    (apply appends_only_ret || apply appends_only_raise).
Qed.

Lemma appends_only_float (x : option Z) : appends_only (float x).
Proof. destruct x; [apply appends_only_ret | apply appends_only_raise]. Qed.

Create HintDb output.
#[local] Hint Resolve appends_only_ret appends_only_raise appends_only_lift
  appends_only_session_execute appends_only_logger_info appends_only_plt
  appends_only_datetime_now appends_only_LineSchema
  appends_only_SpeedTestResultSchema appends_only_float : output.



(** ** The window and the averages, in general *)

Lemma in_window_iff (s e : date) (d : Database) (r : SpeedTestResult.t) :
  In r (in_window s e d) <-> In r (speed_test_results d) /\ within s e r.
Proof.
  unfold in_window, within, between. rewrite filter_In. split.
  - intros [Hin Hb]. split; [exact Hin |].
    destruct (SpeedTestResult.date_time r) as [t |]; [| discriminate].
    exists t. split; [reflexivity |].
    apply andb_true_iff in Hb. rewrite !Z.leb_le in Hb. exact Hb.
  - intros [Hin [t [Ht Hb]]]. split; [exact Hin |]. rewrite Ht.
    apply andb_true_iff. rewrite !Z.leb_le. exact Hb.
Qed.

Lemma speeds_ids_stmt (s e : date) (d : Database) :
  speeds_ids (map AverageSpeedsPerLine.from_attributes (average_speeds_stmt s e d))
  = nodup option_Z_eq_dec (map SpeedTestResult.line_id (in_window s e d)).
Proof.
  unfold speeds_ids. rewrite map_map.
  change (map (fun x => AverageSpeedsPerLine.line_id
                          (AverageSpeedsPerLine.from_attributes x))
              (average_speeds_stmt s e d))
    with (map fst (average_speeds_stmt s e d)).
  apply aggregate_keys.
Qed.

Lemma ping_ids_stmt (s e : date) (d : Database) :
  ping_ids (map AveragePingPerLine.from_attributes (average_ping_stmt s e d))
  = nodup option_Z_eq_dec (map SpeedTestResult.line_id (in_window s e d)).
Proof.
  unfold ping_ids. rewrite map_map.
  change (map (fun x => AveragePingPerLine.line_id
                          (AveragePingPerLine.from_attributes x))
              (average_ping_stmt s e d))
    with (map fst (average_ping_stmt s e d)).
  apply aggregate_keys.
Qed.

Lemma window_keys (s e : date) (d : Database) (k : option Z) :
  In k (nodup option_Z_eq_dec (map SpeedTestResult.line_id (in_window s e d))) <->
  exists r, In r (speed_test_results d) /\ SpeedTestResult.line_id r = k /\
            within s e r.
Proof.
  rewrite nodup_In, in_map_iff. split.
  - intros [r [Hk Hr]]. apply in_window_iff in Hr. exists r. tauto.
  - intros [r [Hin [Hk Hw]]]. exists r. split; [exact Hk |].
    apply in_window_iff. split; assumption.
Qed.

(** Both functions return when the window is in range. *)
Lemma averages_in_range (w : world) (D : Z) :
  window_in_range (clock w) D ->
  result (average_speeds_per_line D) w
    = inr (map AverageSpeedsPerLine.from_attributes
             (average_speeds_stmt (date_of (clock w) - D) (date_of (clock w)) (db w))) /\
  result (average_ping_per_line D) w
    = inr (map AveragePingPerLine.from_attributes
             (average_ping_stmt (date_of (clock w) - D) (date_of (clock w)) (db w))).
Proof.
  intro Hrange.
  rewrite average_speeds_per_line_result, average_ping_per_line_result.
  rewrite (window_start_in_range _ _ Hrange). split; reflexivity.
Qed.


Lemma range_30_at_noon : window_in_range (clock (Fixtures.test_world 10)) 30.
Proof. unfold window_in_range. vm_compute. repeat split; discriminate. Qed.





Lemma within_wider (s s' e : date) (r : SpeedTestResult.t) :
  s' <= s -> within s e r -> within s' e r.
Proof.
  intros Hle [t [Ht [H1 H2]]]. exists t. split; [exact Ht |].
  split; [| exact H2].
  unfold midnight in *. pose proof usec_per_day_pos.
  assert (s' * usec_per_day <= s * usec_per_day)
    by (apply Z.mul_le_mono_nonneg_r; lia).
  lia.
Qed.

(** X8. Asking for more days never loses a line: when both windows are in
    range and [D1 <= D2], every line id reported for [days = D1] is
    reported for [days = D2], by both functions. *)
Theorem averages_monotone_in_days (w : world) (D1 D2 : Z) :
  D1 <= D2 ->
  window_in_range (clock w) D1 ->
  window_in_range (clock w) D2 ->
  exists speeds1 speeds2 ping1 ping2,
    result (average_speeds_per_line D1) w = inr speeds1 /\
    result (average_speeds_per_line D2) w = inr speeds2 /\
    result (average_ping_per_line D1) w = inr ping1 /\
    result (average_ping_per_line D2) w = inr ping2 /\
    incl (speeds_ids speeds1) (speeds_ids speeds2) /\
    incl (ping_ids ping1) (ping_ids ping2).
Proof.
  intros Hle H1 H2.
  destruct (averages_in_range w D1 H1) as [Hs1 Hp1].
  destruct (averages_in_range w D2 H2) as [Hs2 Hp2].
  do 4 eexists.
  split; [exact Hs1 |]. split; [exact Hs2 |].
  split; [exact Hp1 |]. split; [exact Hp2 |].
  assert (Hincl : forall k,
            In k (nodup option_Z_eq_dec
                    (map SpeedTestResult.line_id
                       (in_window (date_of (clock w) - D1) (date_of (clock w)) (db w)))) ->
            In k (nodup option_Z_eq_dec
                    (map SpeedTestResult.line_id
                       (in_window (date_of (clock w) - D2) (date_of (clock w)) (db w))))).
  { intros k Hk. apply window_keys in Hk. apply window_keys.
    destruct Hk as [r [Hin [Hline Hw]]]. exists r.
    split; [exact Hin |]. split; [exact Hline |].
    apply (within_wider (date_of (clock w) - D1)); [lia | exact Hw]. }
  split.
  - rewrite !speeds_ids_stmt. exact Hincl.
  - rewrite !ping_ids_stmt. exact Hincl.
Qed.

Lemma range_60_at_noon : window_in_range (clock (Fixtures.test_world 10)) 60.
Proof. unfold window_in_range. vm_compute. repeat split; discriminate. Qed.

Lemma averages_monotone_in_days_witness :
  exists speeds1 speeds2 ping1 ping2,
    result (average_speeds_per_line 30) (Fixtures.test_world 10) = inr speeds1 /\
    result (average_speeds_per_line 60) (Fixtures.test_world 10) = inr speeds2 /\
    result (average_ping_per_line 30) (Fixtures.test_world 10) = inr ping1 /\
    result (average_ping_per_line 60) (Fixtures.test_world 10) = inr ping2 /\
    incl (speeds_ids speeds1) (speeds_ids speeds2) /\
    incl (ping_ids ping1) (ping_ids ping2).
Proof.
  apply (averages_monotone_in_days (Fixtures.test_world 10) 30 60).
  - lia.
  - exact range_30_at_noon.
  - exact range_60_at_noon.
Defined.

Lemma window_start_out_of_range (now : datetime) (days : Z) :
  ~ window_in_range now days -> window_start now days = inl OverflowError.
Proof.
  intro Hout. destruct (window_start now days) as [e | s] eqn:E.
  - unfold window_start, timedelta, date_sub in E.
    destruct ((-999999999 <=? days) && (days <=? 999999999));
      [| inversion E; reflexivity].
    destruct ((MINORDINAL <=? date_of now - days)
              && (date_of now - days <=? MAXORDINAL));
      [discriminate | inversion E; reflexivity].
  - exfalso. apply Hout. apply (window_start_inv _ _ _ E).
Qed.

(** X9. The only exception of [average_speeds_per_line] and
    [average_ping_per_line] is [OverflowError], and it depends on [days] and
    the clock alone: both raise it exactly when the date arithmetic leaves
    the range of [timedelta] or [date], whatever the database holds. *)
Theorem averages_raise_overflow_only (w : world) (D : Z) :
  (~ window_in_range (clock w) D ->
     result (average_speeds_per_line D) w = inl OverflowError /\
     result (average_ping_per_line D) w = inl OverflowError) /\
  (forall e, result (average_speeds_per_line D) w = inl e ->
     e = OverflowError /\ ~ window_in_range (clock w) D) /\
  (forall e, result (average_ping_per_line D) w = inl e ->
     e = OverflowError /\ ~ window_in_range (clock w) D).
Proof.
  repeat apply conj.
  - intro Hout.
    rewrite average_speeds_per_line_result, average_ping_per_line_result.
    rewrite (window_start_out_of_range _ _ Hout). split; reflexivity.
  - intros e He.
    assert (Hout : ~ window_in_range (clock w) D).
    { intro Hin. destruct (averages_in_range w D Hin) as [Hs _]. congruence. }
    split; [| exact Hout].
    rewrite average_speeds_per_line_result in He.
    rewrite (window_start_out_of_range _ _ Hout) in He. congruence.
  - intros e He.
    assert (Hout : ~ window_in_range (clock w) D).
    { intro Hin. destruct (averages_in_range w D Hin) as [_ Hp]. congruence. }
    split; [| exact Hout].
    rewrite average_ping_per_line_result in He.
    rewrite (window_start_out_of_range _ _ Hout) in He. congruence.
Qed.

Lemma averages_raise_overflow_only_witness :
  result (average_speeds_per_line 1000000) (Fixtures.test_world 10)
    = inl OverflowError /\
  result (average_ping_per_line 1000000) (Fixtures.test_world 10)
    = inl OverflowError.
Proof.
  apply (averages_raise_overflow_only (Fixtures.test_world 10) 1000000).
  unfold window_in_range. intros [_ [H _]]. vm_compute in H. apply H. reflexivity.
Defined.



(** ** The quota aggregations, in general *)




Lemma total_app (xs ys : list Z) : total (xs ++ ys) = total xs + total ys.
Proof.
  induction xs as [| x xs IH]; simpl; [reflexivity |].
  fold (total (xs ++ ys)). fold (total xs). rewrite IH. lia.
Qed.

Lemma present_cons_total (o : option Z) (vals : list (option Z)) :
  total (present (o :: vals)) = total (present [o]) + total (present vals).
Proof. destruct o as [v |]; simpl; lia. Qed.

Lemma sql_sum_total (vals : list (option Z)) :
  total (present [sql_sum vals]) = total (present vals).
Proof.
  unfold sql_sum. destruct (present vals) as [| v vs]; [reflexivity |].
  cbn [present].
  change (total [total (v :: vs)]) with (total (v :: vs) + 0). lia.
Qed.

Lemma total_weighted_indicator (a : option Z) (v : Z) (ks : list (option Z)) :
  total (map (fun k => if key_eqb a k then v else 0) ks)
  = v * Z.of_nat (count_occ option_Z_eq_dec ks a).
Proof.
  induction ks as [| k ks IH]; [simpl; lia |].
  rewrite map_cons, total_cons, IH. unfold key_eqb.
  destruct (option_Z_eq_dec a k) as [<- | Hne].
  - rewrite count_occ_cons_eq by reflexivity. lia.
  - rewrite count_occ_cons_neq by congruence. lia.
Qed.

Section Conservation.
Context {A : Type}.
Variable key : A -> option Z.
Variable column : A -> option Z.

Lemma column_sum_group_cons (r : A) (rows : list A) (k : option Z) :
  column_sum column (group_of key k (r :: rows))
  = (if key_eqb (key r) k then total (present [column r]) else 0)
    + column_sum column (group_of key k rows).
Proof.
  unfold column_sum, group_of. cbn [filter].
  destruct (key_eqb (key r) k); [| lia].
  cbn [map]. apply present_cons_total.
Qed.

Lemma group_sums_add_up (rows : list A) (ks : list (option Z)) :
  NoDup ks -> (forall r, In r rows -> In (key r) ks) ->
  total (map (fun k => column_sum column (group_of key k rows)) ks)
  = column_sum column rows.
Proof.
  intro Hnd. induction rows as [| r rows IH]; intro Hsub.
  - clear. induction ks as [| k ks IHk]; [reflexivity |].
    rewrite map_cons, total_cons, IHk. reflexivity.
  - rewrite (map_ext _ (fun k =>
               (if key_eqb (key r) k then total (present [column r]) else 0)
               + column_sum column (group_of key k rows)))
      by (intro k; apply column_sum_group_cons).
    assert (Hsplit : forall (f g : option Z -> Z) l,
              total (map (fun k => f k + g k) l) = total (map f l) + total (map g l)).
    { intros f g l. induction l as [| k l IHl]; [reflexivity |].
      rewrite !map_cons, !total_cons, IHl. lia. }
    rewrite Hsplit, IH, total_weighted_indicator.
    + rewrite (proj1 (NoDup_count_occ' option_Z_eq_dec ks) Hnd (key r)).
      * unfold column_sum. cbn [map].
        rewrite (present_cons_total (column r) (map column rows)). lia.
      * apply Hsub. left. reflexivity.
    + intros r' Hr'. apply Hsub. right. exact Hr'.
Qed.

Lemma aggregate_sum_total (rows : list A) :
  total (present (map snd (aggregate key (fun g => sql_sum (map column g)) rows)))
  = column_sum column rows.
Proof.
  rewrite <- (group_sums_add_up rows (nodup option_Z_eq_dec (map key rows))).
  - unfold aggregate, group_by. rewrite !map_map. cbn [fst snd].
    fold (group_of key).
    induction (nodup option_Z_eq_dec (map key rows)) as [| k ks IH];
      [reflexivity |].
    rewrite !map_cons, present_cons_total, total_cons, IH.
    f_equal. apply sql_sum_total.
  - apply NoDup_nodup.
  - intros r Hr. apply nodup_In. apply in_map. exact Hr.
Qed.
End Conservation.

(** X12. The per-line totals add up: the totals of [data_used] charted by
    [get_total_dataused_per_line], summed over the lines (a null total
    adding nothing), give the sum of [data_used] over the whole table; and
    so do the balances of [remaining_balance_by_line] for [balance]. No
    quota row is counted twice or lost, a row without line id included. *)
Theorem per_line_totals_add_up (d : Database) :
  total (present (map snd (total_dataused_stmt d)))
    = column_sum QuotaResults.data_used (quota_results d) /\
  total (present (map snd (remaining_balance_stmt d)))
    = column_sum QuotaResults.balance (quota_results d).
Proof.
  split; apply aggregate_sum_total.
Qed.

(** ** The charts *)









(** ** Requests *)

Lemma server_eta (s : server) : mkServer (process s) (open_sessions s) = s.
Proof. destruct s. reflexivity. Qed.

(** X14. The handlers of [/total-dataused-per-line] and
    [/count-per-renewal-cost] carry the names of the functions they mean to
    call, so in [app.py] these names denote the handlers themselves.  A
    request on either route runs no query, draws no chart and writes no log:
    the handler returns a coroutine, the response fails validation, and the
    server is left exactly as it was. *)
Theorem shadowed_handlers_compute_nothing (a : arguments) (s : server) :
  global "get_total_dataused_per_line" app_py
    = Some (AsyncDef "get_total_dataused_per_line") /\
  global "get_count_per_renewal_cost" app_py
    = Some (AsyncDef "get_count_per_renewal_cost") /\
  request Route_total_dataused_per_line a s
    = (inl (Raised ResponseValidationError), s) /\
  request Route_count_per_renewal_cost a s
    = (inl (Raised ResponseValidationError), s).
Proof.
  repeat apply conj; try reflexivity.
  - unfold request, get_db, hbind, try_finally. simpl. rewrite server_eta.
    reflexivity.
  - unfold request, get_db, hbind, try_finally. simpl. rewrite server_eta.
    reflexivity.
Qed.

Lemma get_db_passes_on {A} (m : M A) (wrap : A -> returned)
    (model : response_model) (s : server) :
  (forall rows, serialize model (wrap rows) = hret (wrap rows)) ->
  get_db (hbind (run (rows <- m ;; ret (wrap rows))) (serialize model)) s
  = passes_on m wrap s.
Proof.
  intro Hfits. unfold get_db, hbind, try_finally, SessionLocal, close, run,
    passes_on, bind, ret. simpl.
  destruct (m (process s)) as [[e | rows] w']; simpl.
  - reflexivity.
  - rewrite Hfits. reflexivity.
Qed.

(** X15. On [/lines], [/quota-results], [/speed-test-results],
    [/average-speeds-per-line] and [/average-ping-per-line] a request
    answers with exactly what the data-access function returns for the
    query parameters, or fails with the exception that the function raises;
    the response check never rejects a returned list.  The session count is
    afterwards what it was. *)
Theorem requests_pass_on_crud_results (a : arguments) (s : server) :
  request Route_lines a s = passes_on (read_lines (arg_id a)) LineRecords s /\
  request Route_quota_results a s
    = passes_on (read_quota_results (arg_line_id a)) QuotaRecords s /\
  request Route_speed_test_results a s
    = passes_on (read_speed_test_results (arg_line_id a)) SpeedTestRecords s /\
  request Route_average_speeds_per_line a s
    = passes_on (average_speeds_per_line (arg_days a)) SpeedAverages s /\
  request Route_average_ping_per_line a s
    = passes_on (average_ping_per_line (arg_days a)) PingAverages s.
Proof.
  repeat apply conj;
    (apply (get_db_passes_on _ _ _ s); intro rows; reflexivity).
Qed.

(** ** Sessions *)

Lemma steady_hret {A} (a : A) : steady (hret a).
Proof. intro s. split; reflexivity. Qed.

Lemma steady_hraise {A} (f : failure) : steady (@hraise A f).
Proof. intro s. split; reflexivity. Qed.

Lemma steady_hbind {A B} (m : Served A) (k : A -> Served B) :
  steady m -> (forall a, steady (k a)) -> steady (hbind m k).
Proof.
  intros Hm Hk s. unfold hbind. destruct (Hm s) as [Hn Hd].
  destruct (m s) as [[f | a] s']; simpl in *.
  - split; assumption.
  - destruct (Hk a s') as [Hn' Hd']. split; congruence.
Qed.

Lemma steady_run {A} (m : M A) : preserves_db m -> steady (run m).
Proof.
  intros Hm s. unfold run. specialize (Hm (process s)). unfold final in Hm.
  destruct (m (process s)) as [[e | a] w']; simpl in *; split;
    (reflexivity || exact Hm).
Qed.

Lemma steady_serialize (model : response_model) (v : returned) :
  steady (serialize model v).
Proof.
  destruct model, v; simpl; (apply steady_hret || apply steady_hraise).
Qed.

(** The session that [get_db] opens is closed when the request ends, also
    when it fails. *)
Lemma steady_get_db {A} (req : Served A) : steady req -> steady (get_db req).
Proof.
  intros Hreq s. unfold get_db, hbind, try_finally, SessionLocal, close.
  destruct (Hreq (mkServer (process s) (S (open_sessions s)))) as [Hn Hd].
  destruct (req (mkServer (process s) (S (open_sessions s)))) as [r s'].
  simpl in *. rewrite Hn. split; [reflexivity | exact Hd].
Qed.

Lemma crud_preserves_tables (name : string) (a : arguments) (m : M returned) :
  crud name a = Some m -> preserves_db m.
Proof.
  unfold crud.
  repeat match goal with
         | |- (if ?c then _ else _) = _ -> _ => destruct c
         end;
    intro E; inversion E; subst; clear E; frame.
Qed.

Lemma steady_call (name : string) (a : arguments) : steady (call name a).
Proof.
  unfold call. destruct (global name app_py) as [[imported | defined] |].
  - destruct (crud imported a) as [m |] eqn:E.
    + apply steady_run. apply (crud_preserves_tables _ _ _ E).
    + apply steady_hraise.
  - apply steady_hret.
  - apply steady_hraise.
Qed.

(** X16. Every request leaves the server with as many open sessions as
    before, the session that [get_db] opened being closed whether the
    handler returned, raised, or returned what the response check rejects;
    and no request changes a table. *)
Theorem requests_release_sessions (r : route) (a : arguments) (s : server) :
  open_sessions (snd (request r a s)) = open_sessions s /\
  db (process (snd (request r a s))) = db (process s).
Proof.
  assert (Hrespond : steady (hbind (handler r a) (serialize (response_model_of r)))).
  { apply steady_hbind.
    - destruct r; simpl; (apply steady_hret || apply steady_call).
    - intro v. apply steady_serialize. }
  unfold request. destruct (depends_on_db r).
  - apply steady_get_db. exact Hrespond.
  - apply Hrespond.
Qed.
